(** * RK73H part-number decoding and template filling

    A shallow embedding of the decoding / template-filling core of the
    repository:

    - [rk73h_datasheet_generator.py]: [decode_part_number],
      [fill_template_with_part_data], [process_multiple_parts] and the
      data held by [RK73HDataProvider];
    - [simple_part_filler.py]: [fill_specifications_from_part_numbers];
    - [selective_processor.py]: [get_selected_part_specs], with the
      regular-expression engine behind [str.contains] as a parameter;
    - [pdf_extractor.py]: [extract_part_numbers] and the cleaning of
      table headers, with [re.findall] as a parameter.

    Python [str] values are modelled by [string].  The embedding of the
    string primitives is exact on ASCII text, which is what part numbers
    are; the display texts that carry a non-ASCII sign (the ohm sign, the
    plus-minus sign, the degree sign) are only ever stored and compared
    for equality, never inspected.  Python dictionaries with string keys
    are [gmap string _]; data frames are lists of rows; code that can
    raise returns a [result]. *)

From Stdlib Require Import String Ascii List NArith Bool Lia.
From stdpp Require Import gmap strings list fin_maps pretty.


(** ** Python primitives *)

Module Py.

(** The exceptions the modelled code can raise; [ReError] is [re.error]. *)
Inductive exn : Type :=
| IndexError
| KeyError
| AttributeError
| ReError.

Inductive result (A : Type) : Type :=
| Ok (a : A)
| Raise (e : exn).
Arguments Ok {A} a.
Arguments Raise {A} e.

#[export] Instance result_ret : MRet result := fun _ a => Ok a.
#[export] Instance result_bind : MBind result := fun _ _ f m =>
  match m with
  | Ok a => f a
  | Raise e => Raise e
  end.

#[export] Instance result_fmap : FMap result := fun _ _ f m =>
  match m with
  | Ok a => Ok (f a)
  | Raise e => Raise e
  end.

Definition is_ok {A} (r : result A) : bool :=
  match r with Ok _ => true | Raise _ => false end.

(** [c.isspace()] on an ASCII character: TAB, LF, VT, FF, CR, the four
    separators FS, GS, RS, US, and the space.  The regular-expression
    class [\s] and [str.split()] both use this test. *)
Definition isspace (c : ascii) : bool :=
  let n := nat_of_ascii c in
  ((9 <=? n) && (n <=? 13)) || ((28 <=? n) && (n <=? 32)).

Definition upper_char (c : ascii) : ascii :=
  let n := nat_of_ascii c in
  if (97 <=? n) && (n <=? 122) then ascii_of_nat (n - 32) else c.

(** [s.upper()], on ASCII text. *)
Fixpoint upper (s : string) : string :=
  match s with
  | EmptyString => EmptyString
  | String c s' => String (upper_char c) (upper s')
  end.

(** [s.startswith(p)] *)
Definition startswith (s p : string) : bool := String.prefix p s.

(** [s[i:j]] for non-negative [i] and [j]; like Python's slice it is
    truncated at the end of the string and never raises. *)
Definition slice (i j : nat) (s : string) : string := substring i (j - i) s.

(** [s[i]]: raises [IndexError] past the end of the string. *)
Definition str_getitem (s : string) (i : nat) : result string :=
  match String.get i s with
  | Some c => Ok (String c EmptyString)
  | None => Raise IndexError
  end.

(** [l[i]]: raises [IndexError] past the end of the list. *)
Definition getitem {A} (l : list A) (i : nat) : result A :=
  match l !! i with
  | Some x => Ok x
  | None => Raise IndexError
  end.

(** [d[k]]: raises [KeyError] when the key is missing. *)
Definition dict_getitem {A} (d : gmap string A) (k : string) : result A :=
  match d !! k with
  | Some x => Ok x
  | None => Raise KeyError
  end.

(** [d.get(k, dflt)] *)
Definition dict_get {A} (d : gmap string A) (k : string) (dflt : A) : A :=
  default dflt (d !! k).

Section Whitespace.
(** The whitespace test shared by [re.sub(r'\s+', ...)] and
    [str.split()]. *)
Variable sp : ascii -> bool.

(** [re.sub(r'\s+', '', s)]: every maximal run of whitespace is
    replaced by the empty string, that is, every whitespace character
    is dropped. *)
Fixpoint remove_runs (s : string) : string :=
  match s with
  | EmptyString => EmptyString
  | String c s' => if sp c then remove_runs s' else String c (remove_runs s')
  end.

(** [s.split()] with no argument: the maximal runs of non-whitespace
    characters, in order; [tok] is the token being read. *)
Fixpoint split_from (tok : string) (s : string) : list string :=
  match s with
  | EmptyString => if String.eqb tok "" then [] else [tok]
  | String c s' =>
      if sp c
      then (if String.eqb tok "" then split_from "" s' else tok :: split_from "" s')
      else split_from (tok +:+ String c EmptyString) s'
  end.

Definition split_on (s : string) : list string := split_from "" s.

(** No character of [s] is whitespace. *)
Fixpoint no_space (s : string) : bool :=
  match s with
  | EmptyString => true
  | String c s' => negb (sp c) && no_space s'
  end.
End Whitespace.

Definition re_sub_spaces (s : string) : string := remove_runs isspace s.
Definition split (s : string) : list string := split_on isspace s.

End Py.

Import Py.

(** ** Data frames *)

Module Frame.

(** A spreadsheet cell as pandas reads it: an empty cell is [NaN]. *)
Inductive cell : Type :=
| NaN
| Str (s : string).

#[export] Instance cell_eq_dec : EqDecision cell.
Proof. solve_decision. Defined.

(** A row of the template: the columns [parameter], [unit], [value]. *)
Record row : Type := Row { parameter : cell; unit_ : cell; value : cell }.

(** [template.at[idx, 'value'] = v]: the row labelled [idx] gets the new
    value; the index of a frame read from a file is [0 .. n-1]. *)
Definition set_value (v : cell) (r : row) : row :=
  {| parameter := parameter r; unit_ := unit_ r; value := v |}.

Definition at_value (idx : nat) (v : cell) (template : list row) : list row :=
  alter (set_value v) idx template.

(** [template['parameter'].items()]: the pairs of index and parameter. *)
Definition parameter_items (template : list row) : list (nat * cell) :=
  imap (fun idx r => (idx, parameter r)) template.

(** A row of the reference table [RK73H_Full_Data.xlsx]: its
    ['Part Number'] cell and its other columns by label. *)
Record ref_row : Type := RefRow { Part_Number : cell; columns : gmap string cell }.

(** [row.get(label, dflt)] *)
Definition series_get (r : ref_row) (label : string) (dflt : cell) : cell :=
  if String.eqb label "Part Number" then Part_Number r
  else default dflt (columns r !! label).

(** A row of a batch result that carries the part number as its first
    column. *)
Record tagged : Type := Tagged { tag : cell; fields : row }.

(** [df.insert(0, label, part)] *)
Definition insert_part (part : string) (df : list row) : list tagged :=
  map (Tagged (Str part)) df.

End Frame.

Import Frame.

(** ** rk73h_datasheet_generator.py *)

Module Generator.

(** The dictionary [decoded] as [decode_part_number] creates it. *)
Definition decoded_init : gmap string string :=
  list_to_map [("series", "RK73H"); ("size_code", "");
               ("resistance_code", ""); ("tolerance_code", "");
               ("termination_code", ""); ("packaging_code", "")].

(** [decode_part_number(part_number)].  The dictionary is created with
    its six keys and updated in place. *)
Definition decode_part_number (part_number : string) : result (gmap string string) :=
  let decoded := decoded_init in
  let clean_part := re_sub_spaces (upper part_number) in
  if startswith clean_part "RK73H" then
    let decoded :=
      if 7 <? String.length clean_part
      then <["size_code" := slice 5 7 clean_part]> decoded
      else decoded in
    let parts := split clean_part in
    if 4 <=? length parts then
      resistance_code ← (if 2 <? length parts then getitem parts 2 else Ok "");
      let decoded := <["resistance_code" := resistance_code]> decoded in
      tolerance_code ←
        (if 3 <? length parts
         then p ← getitem parts 3; str_getitem p 0
         else Ok "");
      Ok (<["tolerance_code" := tolerance_code]> decoded)
    else Ok decoded
  else Ok decoded.

(** The dictionary built by [RK73HDataProvider.load_extracted_data]. *)
Record extracted_specs : Type := {
  series : string;
  type : string;
  manufacturer : string;
  technology : string;
  resistance_range : string;
  power_ratings : gmap string string;
  tolerance_options : list string;
  voltage_rating : string;
  operating_temp : string;
  tcr : string;
  package_sizes : gmap string string;
  termination : string;
  packaging : string;
  automotive_qualified : string;
  halogen_free : string;
  resistance_codes : gmap string string
}.

Definition load_extracted_data : extracted_specs := {|
  series := "RK73H";
  type := "Thick Film Chip Resistor";
  manufacturer := "KOA Speer";
  technology := "Thick Film";
  resistance_range := "1Ω to 10MΩ";
  power_ratings := list_to_map
    [("0402", "0.063W (1/16W)"); ("0603", "0.1W (1/10W)");
     ("0805", "0.125W (1/8W)"); ("1206", "0.25W (1/4W)");
     ("1210", "0.5W (1/2W)"); ("1812", "0.75W (3/4W)");
     ("2010", "0.75W (3/4W)"); ("2512", "1W")];
  tolerance_options := ["±0.1%"; "±0.25%"; "±0.5%"; "±1%"; "±5%"];
  voltage_rating := "50V to 200V (depending on size)";
  operating_temp := "-55°C to +155°C";
  tcr := "±100/±200/±400 ppm/°C";
  package_sizes := list_to_map
    [("1E", "0402 (1.0×0.5mm)"); ("1J", "0603 (1.6×0.8mm)");
     ("2A", "0805 (2.0×1.25mm)"); ("2B", "1206 (3.2×1.6mm)");
     ("2F", "1210 (3.2×2.5mm)"); ("3A", "1812 (4.5×3.2mm)");
     ("3B", "2010 (5.0×2.5mm)"); ("3C", "2512 (6.4×3.2mm)")];
  termination := "Cu/Ni/Sn";
  packaging := "Tape & Reel";
  automotive_qualified := "AEC-Q200";
  halogen_free := "Yes";
  resistance_codes := list_to_map
    [("1001", "1kΩ"); ("1002", "10kΩ"); ("1003", "100kΩ");
     ("4731", "4.73kΩ"); ("1000", "100Ω"); ("1500", "150Ω")]
|}.

(** [RK73HDataProvider.create_default_template] *)
Definition create_default_template : list row :=
  let parameter :=
    ["Specifications"; "Resistance"; "Maximum Working Voltage"; "Tolerance";
     "Operating Temperature"; "Package Size"; "Rated Power per Element";
     "Temperature Coefficient"; "Lead Finish"; "Technology"; "Series";
     "Automotive Qualified"; "Environmental Compliance"; "Packaging Type"] in
  let unit :=
    [""; "[Ohm]"; "[V dc]"; "[± %]"; "[℃]"; "[EIA]"; "[W]";
     "[± ppm/K]"; ""; ""; ""; ""; ""; ""] in
  zip_with (fun p u => Row (Str p) (Str u) (Str "")) parameter unit.

(** [RK73HDataProvider.load_template]: the rows of [test1.xlsx] when the
    file can be read, the default template otherwise. *)
Definition load_template (test1_xlsx : option (list row)) : list row :=
  match test1_xlsx with
  | Some template_df => template_df
  | None => create_default_template
  end.

Record RK73HDataProvider : Type := {
  extracted_data : extracted_specs;
  template : list row
}.

(** [RK73HDataProvider()] *)
Definition new_provider (test1_xlsx : option (list row)) : RK73HDataProvider :=
  {| extracted_data := load_extracted_data; template := load_template test1_xlsx |}.

(** The loop that applies the values to the template:
    [for idx, param in template['parameter'].items(): ...]. *)
Fixpoint apply_values (parameter_values : gmap string string)
    (items : list (nat * cell)) (template : list row) : list row :=
  match items with
  | [] => template
  | (idx, param) :: items' =>
      let template :=
        match param with
        | Str name =>
            match parameter_values !! name with
            | Some v => at_value idx (Str v) template
            | None => template
            end
        | NaN => template
        end in
      apply_values parameter_values items' template
  end.

Definition size_mapping : gmap string (string * string) :=
  list_to_map
    [("1E", ("0402", "0.063W")); ("1J", ("0603", "0.1W"));
     ("2A", ("0805", "0.125W")); ("2B", ("1206", "0.25W"));
     ("2F", ("1210", "0.5W")); ("3A", ("1812", "0.75W"));
     ("3B", ("2010", "0.75W")); ("3C", ("2512", "1W"))].

(** The resistance look-up of [fill_template_with_part_data]:
    [extracted_data['resistance_codes'].get(resistance_code, 'See datasheet')]. *)
Definition resistance_value (extracted_data : extracted_specs)
    (resistance_code : string) : string :=
  dict_get (resistance_codes extracted_data) resistance_code "See datasheet".

(** The same look-up as a computation that could raise: [dict.get]
    with a default value never does. *)
Definition resistance_lookup (extracted_data : extracted_specs)
    (resistance_code : string) : result string :=
  Ok (resistance_value extracted_data resistance_code).

(** The dictionary [parameter_values] that
    [fill_template_with_part_data] builds before it touches the
    template. *)
Definition parameter_values (part_number : string) (data_provider : RK73HDataProvider)
    : result (gmap string string) :=
  let extracted_data := extracted_data data_provider in
  decoded ← decode_part_number part_number;
  size_code ← dict_getitem decoded "size_code";
  let '(package_size, power_rating) :=
    match size_mapping !! size_code with
    | Some sizes => sizes
    | None => ("", "")
    end in
  resistance_code ← dict_getitem decoded "resistance_code";
  let resistance_value := resistance_value extracted_data resistance_code in
  Ok (list_to_map
    [("Specifications", part_number);
     ("Resistance", resistance_value);
     ("Maximum Working Voltage", "50V");
     ("Tolerance", "±1%");
     ("Operating Temperature", operating_temp extracted_data);
     ("Package Size", package_size);
     ("Rated Power per Element", power_rating);
     ("Temperature Coefficient", "±200 ppm/°C");
     ("Lead Finish", termination extracted_data);
     ("Technology", technology extracted_data);
     ("Series", series extracted_data);
     ("Automotive Qualified", automotive_qualified extracted_data);
     ("Environmental Compliance", "Halogen-Free");
     ("Packaging Type", packaging extracted_data)]).

(** [fill_template_with_part_data(part_number, data_provider)] *)
Definition fill_template_with_part_data (part_number : string)
    (data_provider : RK73HDataProvider) : result (list row) :=
  let template := template data_provider in
  parameter_values ← parameter_values part_number data_provider;
  Ok (apply_values parameter_values (parameter_items template) template).

Definition separator : list tagged :=
  [Tagged (Str "") (Row (Str "--- Next Part ---") (Str "") (Str ""))].

(** The loop of [process_multiple_parts]; [all_results] is the list of
    frames collected so far. *)
Fixpoint process_loop (data_provider : RK73HDataProvider)
    (part_numbers_list : list string) (all_results : list (list tagged))
    : result (list (list tagged)) :=
  match part_numbers_list with
  | [] => Ok all_results
  | part_number :: rest =>
      filled_template ← fill_template_with_part_data part_number data_provider;
      let filled_template := insert_part part_number filled_template in
      let all_results :=
        if 0 <? length all_results
        then all_results ++ [separator]
        else all_results in
      process_loop data_provider rest (all_results ++ [filled_template])
  end.

(** [process_multiple_parts(part_numbers_list)]; [pd.concat] joins the
    frames, and no frame at all gives the empty frame. *)
Definition process_multiple_parts (test1_xlsx : option (list row))
    (part_numbers_list : list string) : result (list tagged) :=
  let data_provider := new_provider test1_xlsx in
  all_results ← process_loop data_provider part_numbers_list [];
  Ok (concat all_results).

End Generator.

Import Generator.

(** ** simple_part_filler.py *)

Module SimpleFiller.

(** The dictionary [data_mapping] built for a part found in the
    reference table. *)
Definition data_mapping (part_number : string) (part_data : ref_row) : gmap string cell :=
  list_to_map
    [("Specifications", Str part_number);
     ("Resistance", series_get part_data "Resistance" (Str ""));
     ("Maximum Working Voltage", series_get part_data "Max Working Voltage (V)" (Str ""));
     ("Tolerance", series_get part_data "Tolerance (%)" (Str ""));
     ("Operating Temperature", Str "-55°C to +155°C");
     ("Package Size", series_get part_data "EIA Code" (Str ""));
     ("Rated Power per Element", series_get part_data "Power Rating (W)" (Str ""));
     ("Temperature Coefficient", series_get part_data "T.C.R. (ppm/°C)" (Str ""));
     ("Lead Finish", series_get part_data "Termination Material" (Str ""));
     ("Technology", Str "Thick Film")].

(** [for idx, param in filled['parameter'].items(): ...] *)
Fixpoint fill_values (data_mapping : gmap string cell)
    (items : list (nat * cell)) (filled : list row) : list row :=
  match items with
  | [] => filled
  | (idx, param) :: items' =>
      let filled :=
        match param with
        | Str name =>
            match data_mapping !! name with
            | Some v => at_value idx v filled
            | None => filled
            end
        | NaN => filled
        end in
      fill_values data_mapping items' filled
  end.

Definition separator : list row :=
  [Row (Str "") (Str "") (Str "");
   Row (Str "--- Next Part ---") (Str "") (Str "");
   Row (Str "") (Str "") (Str "")].

(** [full_data[full_data['Part Number'] == part_number]] *)
Definition exact_rows (part_number : string) (full_data : list ref_row) : list ref_row :=
  List.filter (fun r => bool_decide (Part_Number r = Str part_number)) full_data.

(** The loop over the part numbers; a part without a row in the
    reference table is reported on the console and skipped. *)
Fixpoint fill_loop (full_data : list ref_row) (template : list row)
    (part_numbers : list string) (all_results : list (list row)) : list (list row) :=
  match part_numbers with
  | [] => all_results
  | part_number :: rest =>
      let part_row := exact_rows part_number full_data in
      match part_row with
      | [] => fill_loop full_data template rest all_results
      | part_data :: _ =>
          let filled := template in
          let data_mapping := data_mapping part_number part_data in
          let filled := fill_values data_mapping (parameter_items filled) filled in
          let all_results :=
            if 0 <? length all_results
            then all_results ++ [separator]
            else all_results in
          fill_loop full_data template rest (all_results ++ [filled])
      end
  end.

(** The part numbers of the batch that have a row in the reference
    table, in order. *)
Definition found_parts (full_data : list ref_row) (part_numbers : list string)
    : list string :=
  List.filter
    (fun part_number =>
       match exact_rows part_number full_data with [] => false | _ :: _ => true end)
    part_numbers.

(** [fill_specifications_from_part_numbers(part_numbers)], given the
    contents of [RK73H_Full_Data.xlsx] and [test1.xlsx]: the frame
    written to [filled_specifications.xlsx], or [None] when no part was
    found. *)
Definition fill_specifications_from_part_numbers (full_data : list ref_row)
    (template : list row) (part_numbers : list string) : option (list row) :=
  let all_results := fill_loop full_data template part_numbers [] in
  match all_results with
  | [] => None
  | _ :: _ => Some (concat all_results)
  end.

End SimpleFiller.

(** ** selective_processor.py *)

Module Selective.

Definition REQUIRED_PARAMETERS : gmap string string :=
  list_to_map
    [("Resistance", "Resistance");
     ("Maximum Working Voltage", "Max Working Voltage (V)");
     ("Tolerance", "Tolerance (%)");
     ("Package Size", "EIA Code");
     ("Rated Power per Element", "Power Rating (W)")].

(** What the function prints, one constructor for each [print] call. *)
Inductive message : Type :=
| NotFound (part : string)
| Found (part : string)
| Filled (param : string) (value : cell)
| NoValidParts.

(** A cell that holds a text. *)
Definition is_text (c : cell) : bool :=
  match c with Str _ => true | NaN => false end.

(** The accessor [column.str].  pandas gives it to a column that can
    hold text only: a column read from a spreadsheet can when one of its
    cells is a text or when it has no row at all; a column whose cells
    are all empty is a column of floats, and [.str] raises
    [AttributeError]. *)
Definition str_accessor (column : list cell) : result (list cell) :=
  match column with
  | [] => Ok column
  | _ :: _ => if existsb is_text column then Ok column else Raise AttributeError
  end.

(** [for idx, param in filled_template["parameter"].items(): ...]:
    only the required parameters are filled, each from the column of the
    reference row that [required_params] names, and each is printed. *)
Fixpoint fill_required (required_params : gmap string string) (row : ref_row)
    (items : list (nat * cell)) (filled_template : list Frame.row)
    (console : list message) : list Frame.row * list message :=
  match items with
  | [] => (filled_template, console)
  | (idx, param) :: items' =>
      match param with
      | Str name =>
          match required_params !! name with
          | Some column_name =>
              let value := series_get row column_name (Str "") in
              fill_required required_params row items'
                (at_value idx value filled_template)
                (console ++ [Filled name value])
          | None => fill_required required_params row items' filled_template console
          end
      | NaN => fill_required required_params row items' filled_template console
      end
  end.

Section Engine.
(** The regular-expression engine: [re.compile(pat, flags=re.IGNORECASE)]
    gives the search of the compiled pattern in a text, or raises
    [re.error] for a pattern that does not compile. *)
Variable re_compile : string -> result (string -> bool).

(** [column.str.contains(pat, case=False, na=False)]: the test that is
    applied to each cell; an empty cell gives [False]. *)
Definition str_contains (column : list cell) (pat : string) : result (cell -> bool) :=
  _ ← str_accessor column;
  search ← re_compile pat;
  mret (fun c => match c with Str s => search s | NaN => false end).

(** The rows that the two masks of the lookup select: exact equality
    on the part number first, case-insensitive containment only when
    that selects nothing. *)
Definition matching_rows (part : string) (full_data : list ref_row)
    : result (list ref_row) :=
  let row := List.filter (fun r => bool_decide (Part_Number r = Str part)) full_data in
  match row with
  | [] =>
      contains ← str_contains (map Part_Number full_data) part;
      mret (List.filter (fun r => contains (Part_Number r)) full_data)
  | _ :: _ => mret row
  end.

(** The loop of [get_selected_part_specs]; an exception of the look-up
    ends it. *)
Fixpoint select_loop (test_template : list Frame.row) (full_data : list ref_row)
    (required_params : gmap string string) (part_numbers : list string)
    (output_frames : list (list tagged)) (console : list message)
    : result (list (list tagged) * list message) :=
  match part_numbers with
  | [] => Ok (output_frames, console)
  | part :: rest =>
      match matching_rows part full_data with
      | Raise e => Raise e
      | Ok [] =>
          select_loop test_template full_data required_params rest
            output_frames (console ++ [NotFound part])
      | Ok (row :: _) =>
          let console := console ++ [Found part] in
          let filled_template := test_template in
          let '(filled_template, console) :=
            fill_required required_params row
              (parameter_items filled_template) filled_template console in
          let filled_template := insert_part part filled_template in
          select_loop test_template full_data required_params rest
            (output_frames ++ [filled_template]) console
      end
  end.

(** [get_selected_part_specs(part_numbers, test_template, full_data,
    required_params)]: the merged frame and what was printed. *)
Definition get_selected_part_specs (part_numbers : list string)
    (test_template : list Frame.row) (full_data : list ref_row)
    (required_params : gmap string string) : result (list tagged * list message) :=
  '(output_frames, console) ←
    select_loop test_template full_data required_params part_numbers [] [];
  match output_frames with
  | [] => mret ([], console ++ [NoValidParts])
  | _ :: _ => mret (concat output_frames, console)
  end.
End Engine.

End Selective.

(** ** The resistance code as the specification words it *)

Module EIA.

Definition digit_value (c : ascii) : option N :=
  let n := nat_of_ascii c in
  if (48 <=? n) && (n <=? 57) then Some (N.of_nat (n - 48)) else None.

Definition is_digit (c : ascii) : bool :=
  match digit_value c with Some _ => true | None => false end.

(** The number a string of decimal digits writes. *)
Fixpoint number_from (acc : N) (s : string) : option N :=
  match s with
  | EmptyString => Some acc
  | String c s' => d ← digit_value c; number_from (10 * acc + d) s'
  end.

(** Section 4.2, for a code without the letter R: the last character is
    the power-of-ten multiplier, the characters before it are the
    significant digits, and the code has 3 or 4 characters. *)
Definition spec_ohms (code : string) : option N :=
  let len := String.length code in
  if (3 <=? len) && (len <=? 4) then
    significant ← number_from 0 (substring 0 (len - 1) code);
    multiplier ← number_from 0 (substring (len - 1) 1 code);
    Some (significant * 10 ^ multiplier)%N
  else None.

Fixpoint count_R (s : string) : nat :=
  match s with
  | EmptyString => 0
  | String c s' => (if Ascii.eqb c "R" then 1 else 0) + count_R s'
  end.

Fixpoint digits_or_R (s : string) : bool :=
  match s with
  | EmptyString => true
  | String c s' => (is_digit c || Ascii.eqb c "R") && digits_or_R s'
  end.

(** Section 4.2: a code is rejected when its length is outside [3,4] or
    when a character other than a single permitted R is not a digit. *)
Definition spec_valid (code : string) : bool :=
  let len := String.length code in
  (3 <=? len) && (len <=? 4) && digits_or_R code && (count_R code <=? 1).

(** The digits after the decimal point: [r] written with [width] digits,
    without its trailing zeros. *)
Fixpoint strip_zeros (s : string) : string :=
  match s with
  | EmptyString => EmptyString
  | String c s' =>
      let t := strip_zeros s' in
      if Ascii.eqb c "0" && String.eqb t "" then EmptyString else String c t
  end.

Fixpoint zeros (n : nat) : string :=
  match n with
  | O => EmptyString
  | S n' => String "0" (zeros n')
  end.

Definition scaled (n unit : N) (width : nat) : string :=
  let whole := pretty (n / unit)%N in
  let rest := pretty (n mod unit)%N in
  let fraction := strip_zeros (zeros (width - String.length rest) +:+ rest) in
  if String.eqb fraction "" then whole else whole +:+ "." +:+ fraction.

(** Section 4.2: the display string, with the unit prefix chosen by
    magnitude. *)
Definition spec_display (ohms : N) : string :=
  if (ohms <? 1000)%N then pretty ohms +:+ "Ω"
  else if (ohms <? 1000000)%N then scaled ohms 1000 3 +:+ "kΩ"
  else scaled ohms 1000000 6 +:+ "MΩ".

End EIA.

(** ** The shape of the results *)

Module Shape.

(** A template row after one of the filling loops: its value is replaced
    when its parameter is a text that the dictionary has, and the row is
    left as it is otherwise. *)
Definition filled_row (values : gmap string cell) (r : row) : row :=
  match parameter r with
  | Str name =>
      match values !! name with
      | Some v => set_value v r
      | None => r
      end
  | NaN => r
  end.

(** The frames of a batch, one after the other, with the separator
    between two consecutive frames. *)
Fixpoint join_frames {A} (separator : list A) (frames : list (list A)) : list A :=
  match frames with
  | [] => []
  | [frame] => frame
  | frame :: frames' => frame ++ separator ++ join_frames separator frames'
  end.

End Shape.

(** ** The look-up of a part number, in words *)

Module Lookup.




(** A text with its letters A to Z turned into a to z: two ASCII texts
    are equal without regard to case when they are equal after that. *)
Definition fold_case_char (c : ascii) : ascii :=
  let n := nat_of_ascii c in
  if (65 <=? n) && (n <=? 90) then ascii_of_nat (n + 32) else c.

Fixpoint fold_case (s : string) : string :=
  match s with
  | EmptyString => EmptyString
  | String c s' => String (fold_case_char c) (fold_case s')
  end.

(** [part] occurs somewhere in [text], without regard to the case of
    the letters. *)
Definition contains_ci (part text : string) : Prop :=
  exists before after, fold_case text = before +:+ fold_case part +:+ after.

(** The cell is a text in which [part] occurs, without regard to case. *)
Definition contains (part : string) (c : cell) : Prop :=
  exists text, c = Str text /\ contains_ci part text.


(** The same row, computed: [search] is what the engine makes of the part
    number. *)
Definition selected_row (re_compile : string -> result (string -> bool))
    (part : string) (full_data : list ref_row) : option ref_row :=
  match List.find (fun r => bool_decide (Part_Number r = Str part)) full_data with
  | Some row => Some row
  | None =>
      match re_compile part with
      | Ok search =>
          List.find
            (fun r => match Part_Number r with Str text => search text | NaN => false end)
            full_data
      | Raise _ => None
      end
  end.

End Lookup.

(** ** Patterns that search for a text itself *)

Module Literal.

(** A pattern in which no character is special to the regular-expression
    engine, so that searching for it is searching for the text itself. *)
Definition regex_special (c : ascii) : bool :=
  bool_decide (c ∈ list_ascii_of_string ".^$*+?{}[]\|()").

Fixpoint plain_pattern (pat : string) : bool :=
  match pat with
  | EmptyString => true
  | String c pat' => negb (regex_special c) && plain_pattern pat'
  end.

(** [pat] occurs in [s]. *)
Fixpoint occurs_in (pat s : string) : bool :=
  String.prefix pat s ||
  match s with
  | EmptyString => false
  | String _ s' => occurs_in pat s'
  end.

(** An engine that knows the plain patterns only, to run the examples:
    on a plain pattern of ASCII text it is what [re.compile] gives, the
    search for the text itself without regard to case.  It is not the
    engine of Python on the other patterns, which it refuses. *)
Definition plain_engine (pat : string) : result (string -> bool) :=
  if plain_pattern pat
  then Ok (fun text => occurs_in (Lookup.fold_case pat) (Lookup.fold_case text))
  else Raise ReError.

End Literal.

(** ** pdf_extractor.py *)

Module PdfExtractor.

(** [s.lstrip()] *)
Fixpoint lstrip (s : string) : string :=
  match s with
  | EmptyString => EmptyString
  | String c s' => if isspace c then lstrip s' else s
  end.

(** [s.rstrip()] *)
Fixpoint rstrip (s : string) : string :=
  match s with
  | EmptyString => EmptyString
  | String c s' =>
      let t := rstrip s' in
      if isspace c && String.eqb t EmptyString then EmptyString else String c t
  end.

(** [s.strip()] *)
Definition strip (s : string) : string := rstrip (lstrip s).

(** [re.sub(r'\s+', ' ', s)]: every maximal run of whitespace becomes one
    space; [in_run] tells that the character before was whitespace. *)
Fixpoint collapse_from (in_run : bool) (s : string) : string :=
  match s with
  | EmptyString => EmptyString
  | String c s' =>
      if isspace c
      then (if in_run then collapse_from true s' else String " " (collapse_from true s'))
      else String c (collapse_from false s')
  end.

Definition re_sub_one_space (s : string) : string := collapse_from false s.

(** [' '.join(texts)] *)
Fixpoint join_spaces (texts : list string) : string :=
  match texts with
  | [] => EmptyString
  | [text] => text
  | text :: texts' => text +:+ " " +:+ join_spaces texts'
  end.

(** The loop of [extract_part_numbers] over the matches; [part_numbers]
    is the list built so far. *)
Fixpoint collect_part_numbers (matches : list string) (part_numbers : list string)
    : list string :=
  match matches with
  | [] => part_numbers
  | matched :: rest =>
      let clean_part := re_sub_one_space (strip matched) in
      if bool_decide (clean_part ∈ part_numbers)
      then collect_part_numbers rest part_numbers
      else collect_part_numbers rest (part_numbers ++ [clean_part])
  end.

Section Regex.
(** [re.findall(pattern, text)], the matches of the pattern in the text
    from left to right. *)
Variable findall : string -> string -> list string.

Definition part_pattern : string := "RK73H[0-9A-Z\s]{10,20}[A-Z]{1,3}".

(** [extract_part_numbers(extracted_data)], given the pages of
    [extracted_data['text_content']] as pairs of page number and text. *)
Definition extract_part_numbers (text_content : list (nat * string)) : list string :=
  let all_text := join_spaces (map snd text_content) in
  let matches := findall part_pattern all_text in
  collect_part_numbers matches [].
End Regex.

(** The cleaning of the headers in [process_tables]: a header that is
    missing or empty gets the name of its column position. *)
Fixpoint clean_headers_loop (headers : list (option string)) (clean_headers : list string)
    : list string :=
  match headers with
  | [] => clean_headers
  | header :: rest =>
      let clean_headers :=
        match header with
        | Some text =>
            if String.eqb text EmptyString
            then clean_headers ++ ["Column_" +:+ pretty (length clean_headers)]
            else clean_headers ++ [strip text]
        | None => clean_headers ++ ["Column_" +:+ pretty (length clean_headers)]
        end in
      clean_headers_loop rest clean_headers
  end.

Definition clean_headers (headers : list (option string)) : list string :=
  clean_headers_loop headers [].

End PdfExtractor.

(** ** Sample inputs *)

Module Sample.

Definition reference_row (part resistance eia power : string) : ref_row :=
  RefRow (Str part)
    (list_to_map
       [("Resistance", Str resistance); ("Max Working Voltage (V)", Str "200");
        ("Tolerance (%)", Str "1"); ("EIA Code", Str eia);
        ("Power Rating (W)", Str power)]).

Definition row_2B_FT : ref_row := reference_row "RK73H2B TD 1003 FT" "100k" "1206" "0.25".
Definition row_1E : ref_row := reference_row "RK73H1E TPL 4731 DT" "4.73k" "0402" "0.063".

(** A row whose resistance cell is empty in the spreadsheet. *)
Definition row_blank : ref_row :=
  RefRow (Str "RK73H2A TP 1002 DT")
    (list_to_map [("Resistance", NaN); ("EIA Code", Str "0805")]).

Definition full_data : list ref_row := [row_2B_FT; row_1E; row_blank].

(** A one-row template. *)
Definition resistance_template : list row :=
  [Row (Str "Resistance") (Str "[Ohm]") (Str "")].

End Sample.

(** * Properties *)

Example spec_display_examples :
  map EIA.spec_display [100; 4730; 10000; 1000000; 2200000]%N
  = ["100Ω"; "4.73kΩ"; "10kΩ"; "1MΩ"; "2.2MΩ"].
Proof. vm_compute. reflexivity. Qed.

Example spec_ohms_examples :
  map EIA.spec_ohms ["103"; "1003"; "4731"; "4R7"; "12"; "10034"]
  = [Some 10000; Some 100000; Some 4730; None; None; None]%N.
Proof. vm_compute. reflexivity. Qed.

(** ** The string primitives *)

Lemma append_empty_r (s : string) : s +:+ "" = s.
Proof.
  induction s as [|a s IH]; [reflexivity|].
  change (String a (s +:+ "") = String a s). f_equal. exact IH.
Qed.

Lemma append_snoc (s t : string) (c : ascii) :
  (s +:+ String c "") +:+ t = s +:+ String c t.
Proof.
  induction s as [|a s IH]; [reflexivity|].
  change (String a ((s +:+ String c "") +:+ t) = String a (s +:+ String c t)).
  f_equal. exact IH.
Qed.

Section WhitespaceFacts.
Variable sp : ascii -> bool.

Lemma remove_runs_no_space (s : string) : no_space sp (remove_runs sp s) = true.
Proof.
  induction s as [|c s IH]; simpl; [reflexivity|].
  destruct (sp c) eqn:E; simpl; [exact IH|].
  rewrite E, IH. reflexivity.
Qed.

Lemma split_from_no_space (s tok : string) :
  no_space sp s = true ->
  split_from sp tok s = if String.eqb (tok +:+ s) "" then [] else [tok +:+ s].
Proof.
  revert tok. induction s as [|c s IH]; intros tok H; simpl in *.
  - rewrite append_empty_r. reflexivity.
  - apply andb_prop in H as [Hc Hs]. apply negb_true_iff in Hc. rewrite Hc.
    rewrite IH by exact Hs. rewrite append_snoc. reflexivity.
Qed.

Lemma split_on_no_space_length (s : string) :
  no_space sp s = true -> length (split_on sp s) <= 1.
Proof.
  intros H. unfold split_on. rewrite split_from_no_space by exact H.
  destruct (String.eqb _ _); simpl; lia.
Qed.
End WhitespaceFacts.

Lemma split_clean_length (s : string) : length (split (re_sub_spaces s)) <= 1.
Proof. apply split_on_no_space_length, remove_runs_no_space. Qed.

Example split_example : split " RK73H2B  TD 1003 FT" = ["RK73H2B"; "TD"; "1003"; "FT"].
Proof. reflexivity. Qed.

Example clean_example : re_sub_spaces (upper "rk73h2b TD 1003 ft") = "RK73H2BTD1003FT".
Proof. reflexivity. Qed.

(** ** decode_part_number *)

(** The cleaned part number: upper case, all whitespace removed. *)
Lemma decode_part_number_unfold (part_number : string) :
  let clean_part := re_sub_spaces (upper part_number) in
  decode_part_number part_number =
    Ok (if startswith clean_part "RK73H" && (7 <? String.length clean_part)
        then <["size_code" := slice 5 7 clean_part]> decoded_init
        else decoded_init).
Proof.
  intros clean_part. unfold decode_part_number. fold clean_part.
  destruct (startswith clean_part "RK73H"); [|reflexivity].
  pose proof (split_clean_length (upper part_number)) as Hlen. fold clean_part in Hlen.
  destruct (4 <=? length (split clean_part)) eqn:E.
  - apply Nat.leb_le in E. lia.
  - rewrite andb_true_l. destruct (7 <? String.length clean_part); reflexivity.
Qed.

Lemma decoded_lookup_other (v k : string) :
  k <> "size_code" ->
  (<["size_code" := v]> decoded_init : gmap string string) !! k = decoded_init !! k.
Proof. intros H. apply lookup_insert_ne. congruence. Qed.

(** C9: for every input string, also one that does not start with the
    series prefix, [decode_part_number] returns without raising, and the
    series entry of the returned dictionary is "RK73H". *)
Theorem C9_series_always_RK73H (part_number : string) :
  exists decoded,
    decode_part_number part_number = Ok decoded /\
    decoded !! "series" = Some "RK73H".
Proof.
  rewrite decode_part_number_unfold. eexists. split; [reflexivity|].
  destruct (_ && _); [rewrite decoded_lookup_other by discriminate|]; reflexivity.
Qed.

(** What [parameter_values] returns: the decoded resistance code is
    always empty, and the two size entries come from the size mapping or
    are empty. *)
Lemma parameter_values_unfold (part_number : string) (data_provider : RK73HDataProvider) :
  exists package_size power_rating : string,
    parameter_values part_number data_provider =
      Ok (list_to_map
        [("Specifications", part_number);
         ("Resistance", resistance_value (extracted_data data_provider) "");
         ("Maximum Working Voltage", "50V");
         ("Tolerance", "±1%");
         ("Operating Temperature", operating_temp (extracted_data data_provider));
         ("Package Size", package_size);
         ("Rated Power per Element", power_rating);
         ("Temperature Coefficient", "±200 ppm/°C");
         ("Lead Finish", termination (extracted_data data_provider));
         ("Technology", technology (extracted_data data_provider));
         ("Series", series (extracted_data data_provider));
         ("Automotive Qualified", automotive_qualified (extracted_data data_provider));
         ("Environmental Compliance", "Halogen-Free");
         ("Packaging Type", packaging (extracted_data data_provider))]).
Proof.
  unfold parameter_values. rewrite decode_part_number_unfold.
  set (decoded := if _ && _ then _ else _).
  assert (exists size_code, decoded !! "size_code" = Some size_code) as [size_code Hs].
  { subst decoded. destruct (_ && _); [rewrite lookup_insert_eq|]; eauto. }
  assert (decoded !! "resistance_code" = Some "") as Hr.
  { subst decoded. destruct (_ && _);
      [rewrite decoded_lookup_other by discriminate|]; reflexivity. }
  unfold mbind, result_bind, dict_getitem. rewrite Hs, Hr.
  destruct (size_mapping !! size_code) as [[package_size power_rating]|]; eauto.
Qed.

(** C10: for every input string the decoded resistance and tolerance
    codes are empty: the cleaned string has no whitespace left, so the
    split has at most one token and the branch that assigns the two codes
    is never taken; the resistance look-up of the template filling then
    gives its fallback value. *)
Theorem C10_resistance_code_never_extracted (part_number : string) :
  length (split (re_sub_spaces (upper part_number))) <= 1 /\
  exists decoded,
    decode_part_number part_number = Ok decoded /\
    decoded !! "resistance_code" = Some "" /\
    decoded !! "tolerance_code" = Some "" /\
    forall test1_xlsx, exists values,
      parameter_values part_number (new_provider test1_xlsx) = Ok values /\
      values !! "Resistance" = Some "See datasheet".
Proof.
  split; [apply split_clean_length|].
  rewrite decode_part_number_unfold. eexists. split; [reflexivity|].
  repeat split.
  - destruct (_ && _); [rewrite decoded_lookup_other by discriminate|]; reflexivity.
  - destruct (_ && _); [rewrite decoded_lookup_other by discriminate|]; reflexivity.
  - intros test1_xlsx.
    destruct (parameter_values_unfold part_number (new_provider test1_xlsx))
      as (package_size & power_rating & ->).
    eexists. split; [reflexivity|]. vm_compute. reflexivity.
Qed.

(** C1, evaluated on the code: for "RK73H2B TD 1003 FT" the size code 2B
    gives the package size 1206 and the power rating 0.25W, and the
    tables do map 1003 to 100kΩ, but the resistance entry of the filled
    template is the fallback "See datasheet": the decoded resistance code
    is empty, because the whitespace is removed before the split. *)
Theorem C1_end_to_end_resistance_is_fallback :
  size_mapping !! "2B" = Some ("1206", "0.25W") /\
  resistance_codes load_extracted_data !! "1003" = Some "100kΩ" /\
  exists decoded values rows,
    decode_part_number "RK73H2B TD 1003 FT" = Ok decoded /\
    decoded !! "size_code" = Some "2B" /\
    decoded !! "resistance_code" = Some "" /\
    parameter_values "RK73H2B TD 1003 FT" (new_provider None) = Ok values /\
    values !! "Package Size" = Some "1206" /\
    values !! "Rated Power per Element" = Some "0.25W" /\
    values !! "Resistance" = Some "See datasheet" /\
    fill_template_with_part_data "RK73H2B TD 1003 FT" (new_provider None) = Ok rows /\
    rows !! 1 = Some (Row (Str "Resistance") (Str "[Ohm]") (Str "See datasheet")) /\
    rows !! 5 = Some (Row (Str "Package Size") (Str "[EIA]") (Str "1206")) /\
    rows !! 6 = Some (Row (Str "Rated Power per Element") (Str "[W]") (Str "0.25W")).
Proof.
  split; [vm_compute; reflexivity|]. split; [vm_compute; reflexivity|].
  do 3 eexists. repeat split; vm_compute; reflexivity.
Qed.

(** C5, the claim as stated fails on "RK73H2B TD", a part number of two
    tokens: nothing is raised and the size code is "2B", but the
    segments beyond the tokens given are the empty string, not
    "unknown". *)
Lemma C5_counterexample :
  length (split "RK73H2B TD") = 2 /\
  exists decoded,
    decode_part_number "RK73H2B TD" = Ok decoded /\
    decoded !! "size_code" = Some "2B" /\
    decoded !! "resistance_code" = Some "" /\
    decoded !! "tolerance_code" = Some "" /\
    decoded !! "termination_code" = Some "" /\
    decoded !! "packaging_code" = Some "" /\
    decoded !! "resistance_code" <> Some "unknown".
Proof.
  split; [reflexivity|].
  exists (<["size_code" := "2B"]> decoded_init). split; [reflexivity|].
  repeat split; try reflexivity.
  rewrite decoded_lookup_other by discriminate.
  assert (decoded_init !! "resistance_code" = Some EmptyString) as -> by reflexivity.
  discriminate.
Qed.

(** C5, amended: on a part number of fewer than 4 whitespace-separated
    tokens [decode_part_number] never raises, and a segment that is not
    extracted is the empty string: the resistance, tolerance, termination
    and packaging codes are, and so is the size code when the cleaned
    string does not start with the series prefix or has fewer than 7
    characters; with more than 7 characters the size code is the two
    characters after the prefix.  Nothing is stated for a cleaned string
    of exactly 7 characters. *)
Theorem C5_missing_segments_are_empty (part_number : string) :
  length (split part_number) < 4 ->
  let clean_part := re_sub_spaces (upper part_number) in
  exists decoded,
    decode_part_number part_number = Ok decoded /\
    decoded !! "resistance_code" = Some "" /\
    decoded !! "tolerance_code" = Some "" /\
    decoded !! "termination_code" = Some "" /\
    decoded !! "packaging_code" = Some "" /\
    if negb (startswith clean_part "RK73H") || (String.length clean_part <? 7)
    then decoded !! "size_code" = Some ""
    else if 7 <? String.length clean_part
    then decoded !! "size_code" = Some (slice 5 7 clean_part)
    else True.
Proof.
  intros _ clean_part. rewrite decode_part_number_unfold. fold clean_part.
  eexists. split; [reflexivity|].
  destruct (startswith clean_part "RK73H"); simpl.
  - destruct (7 <? String.length clean_part) eqn:E7.
    + rewrite !decoded_lookup_other by discriminate.
      repeat split; try reflexivity.
      apply Nat.ltb_lt in E7.
      destruct (String.length clean_part <? 7) eqn:E; [apply Nat.ltb_lt in E; lia|].
      apply lookup_insert_eq.
    + repeat split; try reflexivity.
      destruct (String.length clean_part <? 7); [reflexivity|exact I].
  - repeat split; reflexivity.
Qed.

Lemma C5_missing_segments_are_empty_witness :
  length (split "RK73H2B TD 1003") < 4 /\
  exists decoded,
    decode_part_number "RK73H2B TD 1003" = Ok decoded /\
    decoded !! "resistance_code" = Some "" /\
    decoded !! "tolerance_code" = Some "" /\
    decoded !! "termination_code" = Some "" /\
    decoded !! "packaging_code" = Some "" /\
    decoded !! "size_code" = Some "2B".
Proof.
  assert (length (split "RK73H2B TD 1003") < 4) as Htokens by (simpl; lia).
  split; [exact Htokens|].
  exact (C5_missing_segments_are_empty "RK73H2B TD 1003" Htokens).
Defined.

Example decode_short_examples :
  decode_part_number "RK73H2B" = Ok decoded_init /\
  decode_part_number "rk73h 2b t" = Ok (<["size_code" := "2B"]> decoded_init) /\
  decode_part_number "XYZ123" = Ok decoded_init.
Proof. repeat split; vm_compute; reflexivity. Qed.

(** ** The resistance look-up *)

Lemma resistance_codes_keys (code text : string) :
  resistance_codes load_extracted_data !! code = Some text ->
  (code, text) ∈ [("1001", "1kΩ"); ("1002", "10kΩ"); ("1003", "100kΩ");
                  ("4731", "4.73kΩ"); ("1000", "100Ω"); ("1500", "150Ω")].
Proof. intros H. apply elem_of_list_to_map_2 in H. exact H. Qed.

Ltac table_cases H :=
  repeat (apply elem_of_cons in H as [H|H]; [injection H as -> ->|]);
  [..|apply elem_of_nil in H; destruct H].

(** C2, the claim as stated fails on "103": the multiplier rule gives
    10 x 10^3 ohms, displayed as 10kΩ, and the look-up gives the fallback
    text. *)
Lemma C2_counterexample :
  EIA.spec_ohms "103" = Some 10000%N /\
  EIA.spec_display 10000 = "10kΩ" /\
  resistance_value load_extracted_data "103" = "See datasheet" /\
  resistance_value load_extracted_data "103" <> EIA.spec_display 10000.
Proof. repeat split; vm_compute; [reflexivity..|discriminate]. Qed.

(** C2, amended: the resistance decode is a look-up in a table of six
    four-character codes.  For a code of the table the text returned is
    the display of (first three digits) x 10^(last digit) ohms; every
    other code, so every three-character code, gives "See datasheet". *)
Theorem C2_table_follows_multiplier_rule (code : string) :
  match resistance_codes load_extracted_data !! code with
  | Some text =>
      String.length code = 4 /\
      resistance_value load_extracted_data code = text /\
      exists ohms, EIA.spec_ohms code = Some ohms /\ text = EIA.spec_display ohms
  | None => resistance_value load_extracted_data code = "See datasheet"
  end.
Proof.
  unfold resistance_value, dict_get.
  destruct (resistance_codes load_extracted_data !! code) as [text|] eqn:E;
    [|reflexivity].
  apply resistance_codes_keys in E.
  table_cases E; (split; [reflexivity|]); (split; [reflexivity|]);
    eexists; (split; [vm_compute; reflexivity|]); vm_compute; reflexivity.
Qed.

(** C6, the claim as stated fails on "12": the code is rejected by the
    rule of the specification, and the look-up does not fail. *)
Lemma C6_counterexample :
  EIA.spec_valid "12" = false /\
  is_ok (resistance_lookup load_extracted_data "12") = true /\
  resistance_lookup load_extracted_data "12" = Ok "See datasheet".
Proof. repeat split; vm_compute; reflexivity. Qed.

(** C6, amended: the resistance look-up never fails; a code whose length
    is outside [3,4], or with a character that is neither a digit nor a
    single R, is not in the table and gives the fallback text
    "See datasheet". *)
Theorem C6_invalid_code_gives_fallback (code : string) :
  EIA.spec_valid code = false ->
  resistance_lookup load_extracted_data code = Ok "See datasheet".
Proof.
  intros Hinvalid. unfold resistance_lookup, resistance_value, dict_get. f_equal.
  destruct (resistance_codes load_extracted_data !! code) as [text|] eqn:E;
    [|reflexivity].
  apply resistance_codes_keys in E.
  table_cases E; vm_compute in Hinvalid; discriminate.
Qed.

Lemma C6_invalid_code_gives_fallback_witness :
  EIA.spec_valid "10K34" = false /\
  resistance_lookup load_extracted_data "10K34" = Ok "See datasheet".
Proof.
  split; [reflexivity|].
  apply (C6_invalid_code_gives_fallback "10K34"). reflexivity.
Defined.

(** ** The filling loops, row by row *)

Lemma parameter_items_from (k : nat) (r : row) (rows : list row) :
  imap (fun idx x => (k + idx, parameter x)) (r :: rows)
  = (k, parameter r) :: imap (fun idx x => (S k + idx, parameter x)) rows.
Proof.
  simpl. rewrite Nat.add_0_r. f_equal. apply imap_ext. intros i x _. simpl.
  f_equal. lia.
Qed.

Lemma at_value_middle (v : cell) (done : list row) (r : row) (rows : list row) :
  at_value (length done) v (done ++ r :: rows) = done ++ set_value v r :: rows.
Proof.
  unfold at_value. replace (length done) with (length done + 0) by lia.
  rewrite alter_app_r. reflexivity.
Qed.

Lemma fill_values_from (mapping : gmap string cell) (done rows : list row) :
  SimpleFiller.fill_values mapping
    (imap (fun idx x => (length done + idx, parameter x)) rows) (done ++ rows)
  = done ++ map (Shape.filled_row mapping) rows.
Proof.
  revert done. induction rows as [|r rows IH]; intros done; [reflexivity|].
  rewrite parameter_items_from. cbn [SimpleFiller.fill_values map].
  unfold Shape.filled_row at 1.
  assert (forall r', SimpleFiller.fill_values mapping
            (imap (fun idx x => (S (length done) + idx, parameter x)) rows)
            (done ++ r' :: rows)
          = done ++ r' :: map (Shape.filled_row mapping) rows) as Hnext.
  { intros r'. specialize (IH (done ++ [r'])).
    rewrite length_app in IH. simpl in IH.
    replace (length done + 1) with (S (length done)) in IH by lia.
    rewrite <- !app_assoc in IH. exact IH. }
  destruct (parameter r) as [|name]; [apply Hnext|].
  destruct (mapping !! name) as [v|]; [|apply Hnext].
  rewrite at_value_middle. apply Hnext.
Qed.

Lemma fill_values_map (mapping : gmap string cell) (template : list row) :
  SimpleFiller.fill_values mapping (parameter_items template) template
  = map (Shape.filled_row mapping) template.
Proof. apply (fill_values_from mapping [] template). Qed.

(** ** Every template parameter has a value *)

(** C4, the claim as stated fails in [simple_part_filler.py]: an empty
    cell of the reference table reaches the result as a null value, and a
    part number without a row in the table has no result at all. *)
Lemma C4_counterexample :
  SimpleFiller.exact_rows "RK73H2A TP 1002 DT" Sample.full_data = [Sample.row_blank] /\
  SimpleFiller.data_mapping "RK73H2A TP 1002 DT" Sample.row_blank !! "Resistance"
    = Some NaN /\
  SimpleFiller.fill_specifications_from_part_numbers Sample.full_data
    Sample.resistance_template ["RK73H2A TP 1002 DT"]
    = Some [Row (Str "Resistance") (Str "[Ohm]") NaN] /\
  SimpleFiller.fill_specifications_from_part_numbers Sample.full_data
    Sample.resistance_template ["RK73H3A TD 1003 FT"] = None.
Proof. repeat split; vm_compute; reflexivity. Qed.

(** C4, amended: in [fill_template_with_part_data] every one of the 14
    template parameters has a text value for every input part number;
    there is no "unknown" marker and no null value.  In
    [fill_specifications_from_part_numbers] a part number found in the
    reference table has each of the 10 parameters bound to a cell: the
    part number itself, two fixed texts, and for the other seven the cell
    of the first matching reference row in the column of that parameter,
    empty in the result when it is empty in the table, or the empty text
    when the table has no such column; the template is filled with those
    cells.  A part number that is not found gets no result at all. *)
Theorem C4_every_parameter_has_a_value
    (part_number : string) (data_provider : RK73HDataProvider)
    (full_data : list ref_row) (template : list row) :
  (exists values,
     parameter_values part_number data_provider = Ok values /\
     Forall (fun name => exists text : string, values !! name = Some text)
       ["Specifications"; "Resistance"; "Maximum Working Voltage"; "Tolerance";
        "Operating Temperature"; "Package Size"; "Rated Power per Element";
        "Temperature Coefficient"; "Lead Finish"; "Technology"; "Series";
        "Automotive Qualified"; "Environmental Compliance"; "Packaging Type"]) /\
  match head (SimpleFiller.exact_rows part_number full_data) with
  | Some part_data =>
      let column label := default (Str "") (columns part_data !! label) in
      let values := SimpleFiller.data_mapping part_number part_data in
      values !! "Specifications" = Some (Str part_number) /\
      values !! "Resistance" = Some (column "Resistance") /\
      values !! "Maximum Working Voltage" = Some (column "Max Working Voltage (V)") /\
      values !! "Tolerance" = Some (column "Tolerance (%)") /\
      values !! "Operating Temperature" = Some (Str "-55°C to +155°C") /\
      values !! "Package Size" = Some (column "EIA Code") /\
      values !! "Rated Power per Element" = Some (column "Power Rating (W)") /\
      values !! "Temperature Coefficient" = Some (column "T.C.R. (ppm/°C)") /\
      values !! "Lead Finish" = Some (column "Termination Material") /\
      values !! "Technology" = Some (Str "Thick Film") /\
      SimpleFiller.fill_specifications_from_part_numbers full_data template [part_number]
        = Some (map (Shape.filled_row values) template)
  | None =>
      SimpleFiller.fill_specifications_from_part_numbers full_data template [part_number]
        = None
  end.
Proof.
  split.
  - destruct (parameter_values_unfold part_number data_provider)
      as (package_size & power_rating & ->).
    eexists. split; [reflexivity|].
    repeat (apply Forall_cons; split; [eexists; vm_compute; reflexivity|]).
    apply Forall_nil_2.
  - unfold SimpleFiller.fill_specifications_from_part_numbers.
    cbn [SimpleFiller.fill_loop].
    destruct (SimpleFiller.exact_rows part_number full_data) as [|part_data rows];
      cbn [head]; [reflexivity|].
    repeat (split; [reflexivity|]).
    cbn [length Nat.ltb Nat.leb app concat]. rewrite app_nil_r.
    rewrite fill_values_map. reflexivity.
Qed.

(** ** Row counts *)

Lemma at_value_length (idx : nat) (v : cell) (template : list row) :
  length (at_value idx v template) = length template.
Proof. unfold at_value. apply length_alter. Qed.

Lemma apply_values_length (values : gmap string string)
    (items : list (nat * cell)) (template : list row) :
  length (apply_values values items template) = length template.
Proof.
  revert template. induction items as [|[idx param] items IH]; intros template;
    simpl; [reflexivity|].
  rewrite IH. destruct param as [|name]; [reflexivity|].
  destruct (values !! name); [apply at_value_length|reflexivity].
Qed.


(** Filling the template never raises and keeps the number of rows. *)
Lemma fill_template_ok (part_number : string) (data_provider : RK73HDataProvider) :
  exists rows,
    fill_template_with_part_data part_number data_provider = Ok rows /\
    length rows = length (template data_provider).
Proof.
  unfold fill_template_with_part_data.
  destruct (parameter_values_unfold part_number data_provider)
    as (package_size & power_rating & ->).
  eexists. split; [reflexivity|]. apply apply_values_length.
Qed.






Example process_multiple_parts_count :
  (fun r => match r with Ok rows => length rows | Raise _ => 0 end)
    (process_multiple_parts None
       ["RK73H2B TD 1003 FT"; "RK73H1E TPL 4731 DT"; "RK73H1J TK 1001 FT"])
  = 3 * 14 + 2.
Proof. vm_compute. reflexivity. Qed.

(** ** A part number outside the series *)

(** Once a frame has been collected, the loop of [process_multiple_parts]
    only appends: what it appends does not depend on the frames already
    there. *)
Lemma process_loop_appends (data_provider : RK73HDataProvider)
    (part_numbers_list : list string) :
  exists tail, forall frame others,
    process_loop data_provider part_numbers_list (frame :: others)
    = Ok ((frame :: others) ++ tail).
Proof.
  induction part_numbers_list as [|part_number rest IH].
  - exists []. intros frame others. rewrite app_nil_r. reflexivity.
  - destruct IH as (tail & IH).
    destruct (fill_template_ok part_number data_provider) as (rows & Hrows & _).
    exists ([separator; insert_part part_number rows] ++ tail).
    intros frame others. cbn [process_loop]. rewrite Hrows.
    cbn [mbind result_bind length Nat.ltb Nat.leb].
    change (((frame :: others) ++ [separator]) ++ [insert_part part_number rows])
      with (frame :: ((others ++ [separator]) ++ [insert_part part_number rows])).
    rewrite IH. f_equal. simpl. f_equal.
    rewrite <- !app_assoc. reflexivity.
Qed.

(** The batch result for a list of parts is the frame of the first part,
    then, when other parts follow, the separator and their batch
    result. *)
Lemma process_multiple_parts_cons (test1_xlsx : option (list row))
    (part_number : string) (rest : list string) :
  exists rows rows_rest,
    fill_template_with_part_data part_number (new_provider test1_xlsx) = Ok rows /\
    process_multiple_parts test1_xlsx rest = Ok rows_rest /\
    process_multiple_parts test1_xlsx (part_number :: rest) =
      Ok (insert_part part_number rows
          ++ match rest with [] => [] | _ :: _ => separator ++ rows_rest end).
Proof.
  unfold process_multiple_parts. set (data_provider := new_provider test1_xlsx).
  destruct (fill_template_ok part_number data_provider) as (rows & Hrows & _).
  exists rows. cbn [process_loop]. rewrite Hrows.
  cbn [mbind result_bind length Nat.ltb Nat.leb app].
  destruct rest as [|next rest].
  - exists []. repeat split.
  - destruct (fill_template_ok next data_provider) as (rows' & Hrows' & _).
    destruct (process_loop_appends data_provider rest) as (tail & Htail).
    exists (insert_part next rows' ++ concat tail).
    cbn [process_loop]. rewrite Hrows'.
    cbn [mbind result_bind length Nat.ltb Nat.leb app].
    rewrite !Htail. cbn [mbind result_bind].
    split; [reflexivity|]. split; reflexivity.
Qed.




(** ** The reference-table look-up *)

Lemma filter_head_find {A} (f : A -> bool) (l : list A) :
  head (List.filter f l) = List.find f l.
Proof.
  induction l as [|x l IH]; simpl; [reflexivity|].
  destruct (f x); [reflexivity|exact IH].
Qed.

(** [List.find] gives the first row, in table order, that passes the
    test. *)
Lemma find_first_in_order {A} (f : A -> bool) (l : list A) (r : A) :
  List.find f l = Some r <->
  exists before after,
    l = before ++ r :: after /\ f r = true /\ List.forallb (fun x => negb (f x)) before = true.
Proof.
  split.
  - induction l as [|x l IH]; simpl; [discriminate|].
    destruct (f x) eqn:E.
    + intros [= <-]. exists [], l. auto.
    + intros H. destruct (IH H) as (before & after & -> & Hr & Hbefore).
      exists (x :: before), after. simpl. rewrite E, Hbefore. auto.
  - intros (before & after & -> & Hr & Hbefore).
    induction before as [|x before IH]; simpl in *.
    + rewrite Hr. reflexivity.
    + apply andb_prop in Hbefore as [Hx Hbefore].
      apply negb_true_iff in Hx. rewrite Hx. auto.
Qed.




Lemma occurs_in_empty (s : string) : Literal.occurs_in "" s = true.
Proof. destruct s; reflexivity. Qed.



Lemma matching_rows_head (re_compile : string -> result (string -> bool))
    (part : string) (full_data : list ref_row) :
  head <$> Selective.matching_rows re_compile part full_data =
    match List.find (fun r => bool_decide (Part_Number r = Str part)) full_data with
    | Some row => Ok (Some row)
    | None =>
        contains ← Selective.str_contains re_compile (map Part_Number full_data) part;
        Ok (List.find (fun r => contains (Part_Number r)) full_data)
    end.
Proof.
  unfold Selective.matching_rows.
  rewrite <- (filter_head_find (fun r => bool_decide (Part_Number r = Str part))).
  destruct (List.filter _ full_data) as [|row rows] eqn:E; [|reflexivity].
  cbn [head]. destruct (Selective.str_contains _ _ _) as [contains|e]; [|reflexivity].
  change (Ok (head (List.filter (fun r => contains (Part_Number r)) full_data))
          = Ok (List.find (fun r => contains (Part_Number r)) full_data)).
  f_equal. apply filter_head_find.
Qed.

(** One turn of the loop of [get_selected_part_specs]. *)
Lemma select_loop_cons (re_compile : string -> result (string -> bool))
    (part : string) (rest : list string) (test_template : list row)
    (full_data : list ref_row) (required_params : gmap string string)
    (output_frames : list (list tagged)) (console : list Selective.message) :
  Selective.select_loop re_compile test_template full_data required_params
    (part :: rest) output_frames console =
    match head <$> Selective.matching_rows re_compile part full_data with
    | Raise e => Raise e
    | Ok (Some row) =>
        let '(filled_template, printed) :=
          Selective.fill_required required_params row
            (parameter_items test_template) test_template
            (console ++ [Selective.Found part]) in
        Selective.select_loop re_compile test_template full_data required_params rest
          (output_frames ++ [insert_part part filled_template]) printed
    | Ok None =>
        Selective.select_loop re_compile test_template full_data required_params rest
          output_frames (console ++ [Selective.NotFound part])
    end.
Proof.
  cbn [Selective.select_loop].
  destruct (Selective.matching_rows re_compile part full_data) as [[|row rows]|e];
    reflexivity.
Qed.


(** A column with a text cell has a first row that holds a text. *)
Lemma find_text_none (full_data : list ref_row) :
  List.find (fun r => Selective.is_text (Part_Number r)) full_data = None <->
  existsb Selective.is_text (map Part_Number full_data) = false.
Proof.
  induction full_data as [|r rows IH]; simpl; [tauto|].
  destruct (Selective.is_text (Part_Number r)); simpl; [split; discriminate|exact IH].
Qed.

Example lookup_examples :
  map (fun part =>
         head <$> Selective.matching_rows Literal.plain_engine part Sample.full_data)
    ["RK73H1E TPL 4731 DT"; "tpl 4731"; "1002 dt"; "RK73H9"]
  = [Ok (Some Sample.row_1E); Ok (Some Sample.row_1E); Ok (Some Sample.row_blank);
     Ok None].
Proof. reflexivity. Qed.

(** A table with rows that holds no part number at all: the exact match
    finds nothing and the fallback raises. *)
Example lookup_without_text :
  Selective.get_selected_part_specs Literal.plain_engine ["RK73H1E TPL 4731 DT"]
    Sample.resistance_template [RefRow NaN ∅; RefRow NaN ∅] Selective.REQUIRED_PARAMETERS
  = Raise AttributeError.
Proof. reflexivity. Qed.




(** * Further properties of the code *)

(** ** Cleaning a part number *)

Lemma upper_char_isspace (c : ascii) : isspace (upper_char c) = isspace c.
Proof. destruct c as [[] [] [] [] [] [] [] []]; reflexivity. Qed.

Lemma upper_char_idempotent (c : ascii) : upper_char (upper_char c) = upper_char c.
Proof. destruct c as [[] [] [] [] [] [] [] []]; reflexivity. Qed.

Lemma upper_idempotent (s : string) : upper (upper s) = upper s.
Proof.
  induction s as [|c s IH]; simpl; [reflexivity|].
  rewrite upper_char_idempotent, IH. reflexivity.
Qed.

Lemma upper_re_sub_spaces (s : string) :
  upper (re_sub_spaces s) = re_sub_spaces (upper s).
Proof.
  unfold re_sub_spaces. induction s as [|c s IH]; simpl; [reflexivity|].
  rewrite upper_char_isspace. destruct (isspace c); simpl; rewrite IH; reflexivity.
Qed.

Lemma remove_runs_idempotent (sp : ascii -> bool) (s : string) :
  remove_runs sp (remove_runs sp s) = remove_runs sp s.
Proof.
  induction s as [|c s IH]; simpl; [reflexivity|].
  destruct (sp c) eqn:E; simpl; [exact IH|]. rewrite E, IH. reflexivity.
Qed.

(** Cleaning a cleaned part number changes nothing. *)
Lemma clean_idempotent (s : string) :
  re_sub_spaces (upper (re_sub_spaces (upper s))) = re_sub_spaces (upper s).
Proof.
  rewrite upper_re_sub_spaces, upper_idempotent.
  apply remove_runs_idempotent.
Qed.

(** X1: [decode_part_number] only looks at the cleaned part number:
    decoding the cleaned string, the string without its whitespace or
    the upper-case string gives what decoding the string itself gives. *)
Theorem X1_decode_reads_the_cleaned_input (part_number : string) :
  decode_part_number (re_sub_spaces (upper part_number)) = decode_part_number part_number /\
  decode_part_number (re_sub_spaces part_number) = decode_part_number part_number /\
  decode_part_number (upper part_number) = decode_part_number part_number.
Proof.
  assert (re_sub_spaces (upper (re_sub_spaces part_number))
          = re_sub_spaces (upper part_number)) as Hspaces.
  { rewrite upper_re_sub_spaces. apply remove_runs_idempotent. }
  repeat split; rewrite !decode_part_number_unfold; cbv zeta.
  - rewrite clean_idempotent. reflexivity.
  - rewrite Hspaces. reflexivity.
  - rewrite upper_idempotent. reflexivity.
Qed.

(** ** The decoded dictionary and the values derived from it *)

Lemma substring_length (n m : nat) (s : string) :
  String.length (substring n m s) = Nat.min m (String.length s - n).
Proof.
  revert n m. induction s as [|c s IH]; intros [|n] [|m]; simpl; try reflexivity.
  - rewrite IH. rewrite Nat.sub_0_r. reflexivity.
  - rewrite IH. reflexivity.
  - rewrite IH. reflexivity.
Qed.

Lemma upper_substring (n m : nat) (s : string) :
  upper (substring n m s) = substring n m (upper s).
Proof.
  revert n m. induction s as [|c s IH]; intros [|n] [|m]; simpl; try reflexivity.
  - rewrite IH. reflexivity.
  - apply IH.
  - apply IH.
Qed.

Lemma no_space_substring (sp : ascii -> bool) (n m : nat) (s : string) :
  no_space sp s = true -> no_space sp (substring n m s) = true.
Proof.
  revert n m. induction s as [|c s IH]; intros [|n] [|m] H; simpl in *;
    try reflexivity; apply andb_prop in H as [Hc Hs].
  - rewrite Hc. simpl. apply IH, Hs.
  - apply IH, Hs.
  - apply IH, Hs.
Qed.

(** X2: the size code that [decode_part_number] returns is either empty
    or made of exactly two characters, upper case and without
    whitespace. *)
Theorem X2_size_code_shape (part_number : string) :
  exists decoded size_code,
    decode_part_number part_number = Ok decoded /\
    decoded !! "size_code" = Some size_code /\
    (size_code = "" \/
     (String.length size_code = 2 /\
      no_space isspace size_code = true /\
      upper size_code = size_code)).
Proof.
  rewrite decode_part_number_unfold. cbv zeta.
  set (clean_part := re_sub_spaces (upper part_number)).
  destruct (startswith clean_part "RK73H" && (7 <? String.length clean_part)) eqn:E.
  - exists (<["size_code" := slice 5 7 clean_part]> decoded_init), (slice 5 7 clean_part).
    split; [reflexivity|]. split; [apply lookup_insert_eq|]. right.
    apply andb_prop in E as [_ E]. apply Nat.ltb_lt in E.
    unfold slice. split; [|split].
    + rewrite substring_length. lia.
    + apply no_space_substring. apply remove_runs_no_space.
    + rewrite upper_substring. f_equal. subst clean_part.
      rewrite upper_re_sub_spaces, upper_idempotent. reflexivity.
  - exists decoded_init, "". split; [reflexivity|]. split; [reflexivity|]. left. reflexivity.
Qed.

(** X3: whatever the input, the dictionary that [decode_part_number]
    returns has exactly its six keys: a key is never added or removed,
    so indexing it with one of them cannot fail. *)
Theorem X3_decoded_keys (part_number : string) :
  exists decoded,
    decode_part_number part_number = Ok decoded /\
    dom decoded =
      list_to_set ["series"; "size_code"; "resistance_code"; "tolerance_code";
                   "termination_code"; "packaging_code"].
Proof.
  rewrite decode_part_number_unfold. cbv zeta. eexists. split; [reflexivity|].
  destruct (_ && _); [rewrite dom_insert_L|]; reflexivity.
Qed.

(** X4: the values that [fill_template_with_part_data] derives from the
    part number.  The package size and the power rating are the pair
    that the size mapping gives for characters 6-7 of the cleaned part
    number, when that string starts with RK73H and has more than 7
    characters, and both are empty otherwise; the first value is the part
    number as it was given, not cleaned; the resistance is what the table
    gives for the empty code. *)
Theorem X4_values_from_part_number (part_number : string)
    (data_provider : RK73HDataProvider) :
  let clean_part := re_sub_spaces (upper part_number) in
  let sizes :=
    if startswith clean_part "RK73H" && (7 <? String.length clean_part)
    then size_mapping !! slice 5 7 clean_part
    else None in
  exists values,
    parameter_values part_number data_provider = Ok values /\
    values !! "Specifications" = Some part_number /\
    values !! "Package Size" = Some (from_option fst "" sizes) /\
    values !! "Rated Power per Element" = Some (from_option snd "" sizes) /\
    values !! "Resistance" = Some (resistance_value (extracted_data data_provider) "").
Proof.
  intros clean_part sizes. unfold parameter_values.
  rewrite decode_part_number_unfold. cbv zeta. fold clean_part.
  subst sizes.
  destruct (startswith clean_part "RK73H" && (7 <? String.length clean_part)).
  - unfold mbind, result_bind, dict_getitem. rewrite lookup_insert_eq.
    rewrite decoded_lookup_other by discriminate.
    change (decoded_init !! "resistance_code") with (Some "" : option string).
    cbv beta iota.
    destruct (size_mapping !! slice 5 7 clean_part) as [[package_size power_rating]|];
      eexists; (split; [reflexivity|]); repeat split; vm_compute; reflexivity.
  - eexists. split; [reflexivity|]. repeat split; vm_compute; reflexivity.
Qed.

(** ** The filling loop, row by row *)

(** The loop over the rows that are still to do, after the rows [done]. *)
Lemma apply_values_from (values : gmap string string) (done rows : list row) :
  apply_values values
    (imap (fun idx x => (length done + idx, parameter x)) rows) (done ++ rows)
  = done ++ map (Shape.filled_row (Str <$> values)) rows.
Proof.
  revert done. induction rows as [|r rows IH]; intros done; [reflexivity|].
  rewrite parameter_items_from. cbn [apply_values map].
  unfold Shape.filled_row at 1. rewrite ?lookup_fmap.
  assert (forall r', apply_values values
            (imap (fun idx x => (S (length done) + idx, parameter x)) rows)
            (done ++ r' :: rows)
          = done ++ r' :: map (Shape.filled_row (Str <$> values)) rows) as Hnext.
  { intros r'. specialize (IH (done ++ [r'])).
    rewrite length_app in IH. simpl in IH.
    replace (length done + 1) with (S (length done)) in IH by lia.
    rewrite <- !app_assoc in IH. exact IH. }
  destruct (parameter r) as [|name]; [apply Hnext|].
  rewrite lookup_fmap.
  destruct (values !! name) as [v|]; simpl; [|apply Hnext].
  rewrite at_value_middle. apply Hnext.
Qed.

Lemma apply_values_map (values : gmap string string) (template : list row) :
  apply_values values (parameter_items template) template
  = map (Shape.filled_row (Str <$> values)) template.
Proof. apply (apply_values_from values [] template). Qed.

Lemma fill_template_rows (part_number : string) (data_provider : RK73HDataProvider) :
  exists values,
    parameter_values part_number data_provider = Ok values /\
    fill_template_with_part_data part_number data_provider
    = Ok (map (Shape.filled_row (Str <$> values)) (template data_provider)).
Proof.
  unfold fill_template_with_part_data.
  destruct (parameter_values_unfold part_number data_provider)
    as (package_size & power_rating & ->).
  eexists. split; [reflexivity|].
  cbn [mbind result_bind]. rewrite apply_values_map. reflexivity.
Qed.

Lemma parameter_values_extracted (part_number : string)
    (provider provider' : RK73HDataProvider) :
  extracted_data provider = extracted_data provider' ->
  parameter_values part_number provider = parameter_values part_number provider'.
Proof. intros H. unfold parameter_values. rewrite H. reflexivity. Qed.

(** X5: [fill_template_with_part_data] works row by row.  Its loop over
    the index of the template gives, for every template, the template in
    which each row whose parameter is one of the names of the value
    dictionary has that value, and every other row (an empty parameter
    cell, a parameter that the dictionary does not have) is as it was. *)
Theorem X5_fill_template_row_by_row (part_number : string)
    (data_provider : RK73HDataProvider) :
  exists values,
    parameter_values part_number data_provider = Ok values /\
    fill_template_with_part_data part_number data_provider
    = Ok (map (Shape.filled_row (Str <$> values)) (template data_provider)).
Proof. apply fill_template_rows. Qed.

Lemma filled_row_parameter (values : gmap string cell) (r : row) :
  parameter (Shape.filled_row values r) = parameter r /\
  unit_ (Shape.filled_row values r) = unit_ r.
Proof.
  unfold Shape.filled_row. destruct (parameter r) as [|name] eqn:E; [auto|].
  destruct (values !! name); simpl; auto.
Qed.

Lemma filled_row_idempotent (values : gmap string cell) (r : row) :
  Shape.filled_row values (Shape.filled_row values r) = Shape.filled_row values r.
Proof.
  unfold Shape.filled_row at 1.
  rewrite (proj1 (filled_row_parameter values r)).
  unfold Shape.filled_row. destruct (parameter r) as [|name]; [reflexivity|].
  destruct (values !! name); reflexivity.
Qed.

(** X6: [fill_template_with_part_data] writes to the value column only:
    the parameter column and the unit column of the result are those of
    the template, row for row, for every template and part number. *)
Theorem X6_fill_template_keeps_columns (part_number : string)
    (data_provider : RK73HDataProvider) :
  exists rows,
    fill_template_with_part_data part_number data_provider = Ok rows /\
    map parameter rows = map parameter (template data_provider) /\
    map unit_ rows = map unit_ (template data_provider).
Proof.
  destruct (fill_template_rows part_number data_provider)
    as (values & _ & ->).
  eexists. split; [reflexivity|].
  rewrite !map_map. split; apply map_ext; intros r; apply filled_row_parameter.
Qed.

(** X7: filling is idempotent: filling, for the same part number, the
    template that has already been filled gives that filled template
    again. *)
Theorem X7_fill_template_idempotent (part_number : string)
    (data_provider : RK73HDataProvider) :
  exists rows,
    fill_template_with_part_data part_number data_provider = Ok rows /\
    fill_template_with_part_data part_number
      {| extracted_data := extracted_data data_provider; template := rows |}
    = Ok rows.
Proof.
  destruct (fill_template_rows part_number data_provider)
    as (values & Hvalues & Hfill).
  eexists. split; [exact Hfill|].
  set (again := {| extracted_data := extracted_data data_provider; template := _ |}).
  destruct (fill_template_rows part_number again)
    as (values' & Hvalues' & ->).
  assert (values' = values) as ->.
  { rewrite (parameter_values_extracted part_number again data_provider eq_refl)
      in Hvalues'.
    congruence. }
  f_equal. simpl. rewrite map_map. apply map_ext. intros r.
  apply filled_row_idempotent.
Qed.

(** X8: the default template and the value dictionary agree: every one
    of the 14 parameters of [create_default_template] is a key of the
    dictionary, so with the default template every row of the result
    carries the value of its parameter, for every part number. *)
Theorem X8_default_template_is_filled_entirely (part_number : string) :
  exists values rows,
    parameter_values part_number (new_provider None) = Ok values /\
    fill_template_with_part_data part_number (new_provider None) = Ok rows /\
    Forall2
      (fun t r => exists name v,
         parameter t = Str name /\
         values !! name = Some v /\
         r = Row (Str name) (unit_ t) (Str v))
      create_default_template rows.
Proof.
  unfold fill_template_with_part_data.
  destruct (parameter_values_unfold part_number (new_provider None))
    as (package_size & power_rating & ->).
  do 2 eexists. split; [reflexivity|]. split; [vm_compute; reflexivity|].
  repeat (constructor;
          [do 2 eexists; split; [reflexivity|]; split; vm_compute; reflexivity|]).
  constructor.
Qed.

(** ** The batch result of process_multiple_parts *)

(** X9: [process_multiple_parts] never raises, and its result is the
    filled templates of the part numbers, each tagged with its part
    number, in the order of the input (a part number given twice is
    filled twice), with the one-row separator between two consecutive
    templates and nowhere else; no part numbers give no rows. *)
Theorem X9_batch_is_joined_frames (test1_xlsx : option (list row))
    (part_numbers : list string) :
  exists frames,
    Forall2
      (fun part_number frame => exists rows,
         fill_template_with_part_data part_number (new_provider test1_xlsx) = Ok rows /\
         frame = insert_part part_number rows)
      part_numbers frames /\
    process_multiple_parts test1_xlsx part_numbers
    = Ok (Shape.join_frames separator frames).
Proof.
  induction part_numbers as [|part_number rest IH].
  - exists []. split; [constructor|reflexivity].
  - destruct IH as (frames & Hframes & Hrest).
    destruct (process_multiple_parts_cons test1_xlsx part_number rest)
      as (rows & rows_rest & Hrows & Hrest' & ->).
    rewrite Hrest in Hrest'. injection Hrest' as <-.
    exists (insert_part part_number rows :: frames). split.
    + constructor; [exists rows; split; [exact Hrows|reflexivity]|exact Hframes].
    + destruct Hframes as [|next frame rest' frames' Hnext Hframes'].
      * simpl. rewrite app_nil_r. reflexivity.
      * reflexivity.
Qed.

(** X10: a batch can be processed in two parts: for two non-empty lists
    of part numbers, the result for the whole list is the result for the
    first list, the separator, and the result for the second list. *)
Theorem X10_batch_of_two_lists (test1_xlsx : option (list row))
    (first_parts second_parts : list string) :
  first_parts <> [] ->
  second_parts <> [] ->
  exists first_rows second_rows,
    process_multiple_parts test1_xlsx first_parts = Ok first_rows /\
    process_multiple_parts test1_xlsx second_parts = Ok second_rows /\
    process_multiple_parts test1_xlsx (first_parts ++ second_parts)
    = Ok (first_rows ++ separator ++ second_rows).
Proof.
  intros Hfirst Hsecond.
  induction first_parts as [|part_number rest IH]; [congruence|]. clear Hfirst.
  destruct (process_multiple_parts_cons test1_xlsx part_number rest)
    as (rows & rows_rest & Hrows & Hrest & Hcons).
  destruct (process_multiple_parts_cons test1_xlsx part_number (rest ++ second_parts))
    as (rows' & rows_all & Hrows' & Hall & Hcons').
  rewrite Hrows in Hrows'. injection Hrows' as <-.
  destruct rest as [|next rest].
  - exists (insert_part part_number rows), rows_all.
    simpl in Hcons. rewrite app_nil_r in Hcons.
    split; [exact Hcons|]. split; [exact Hall|].
    simpl app in *. rewrite Hcons'.
    destruct second_parts; [congruence|reflexivity].
  - destruct IH as (first_rows & second_rows & Hfirst & Hsecond' & Hboth);
      [discriminate|].
    rewrite Hrest in Hfirst. injection Hfirst as <-.
    rewrite Hall in Hboth. injection Hboth as ->.
    exists (insert_part part_number rows ++ separator ++ rows_rest), second_rows.
    split; [exact Hcons|]. split; [exact Hsecond'|].
    simpl app in *. rewrite Hcons'. f_equal.
    rewrite <- !app_assoc. reflexivity.
Qed.

Lemma X10_batch_of_two_lists_witness :
  ["RK73H2B TD 1003 FT"] <> [] /\
  ["XYZ123"; "RK73H1E TPL 4731 DT"] <> [] /\
  exists first_rows second_rows,
    process_multiple_parts None ["RK73H2B TD 1003 FT"] = Ok first_rows /\
    process_multiple_parts None ["XYZ123"; "RK73H1E TPL 4731 DT"] = Ok second_rows /\
    process_multiple_parts None
      (["RK73H2B TD 1003 FT"] ++ ["XYZ123"; "RK73H1E TPL 4731 DT"])
    = Ok (first_rows ++ separator ++ second_rows).
Proof.
  split; [discriminate|]. split; [discriminate|].
  apply (X10_batch_of_two_lists None); discriminate.
Defined.

(** ** The result of fill_specifications_from_part_numbers *)

Lemma join_frames_cons {A} (separator : list A) (frame : list A)
    (frames : list (list A)) :
  Shape.join_frames separator (frame :: frames)
  = frame ++ concat (flat_map (fun f => [separator; f]) frames).
Proof.
  revert frame. induction frames as [|next frames IH]; intros frame.
  - simpl. rewrite app_nil_r. reflexivity.
  - change (Shape.join_frames separator (frame :: next :: frames))
      with (frame ++ separator ++ Shape.join_frames separator (next :: frames)).
    rewrite IH. reflexivity.
Qed.

(** The loop of [fill_specifications_from_part_numbers] once a frame has
    been collected: every part found adds the separator and its frame. *)
Lemma fill_loop_appends (full_data : list ref_row) (template : list row)
    (part_numbers : list string) (frame : list row) (others : list (list row)) :
  SimpleFiller.fill_loop full_data template part_numbers (frame :: others)
  = (frame :: others)
    ++ flat_map
         (fun part_number =>
            [SimpleFiller.separator;
             match SimpleFiller.exact_rows part_number full_data with
             | part_data :: _ =>
                 map (Shape.filled_row (SimpleFiller.data_mapping part_number part_data))
                   template
             | [] => []
             end])
         (SimpleFiller.found_parts full_data part_numbers).
Proof.
  revert frame others.
  induction part_numbers as [|part_number rest IH]; intros frame others.
  - simpl. rewrite app_nil_r. reflexivity.
  - cbn [SimpleFiller.fill_loop SimpleFiller.found_parts List.filter].
    fold (SimpleFiller.found_parts full_data rest).
    destruct (SimpleFiller.exact_rows part_number full_data) as [|part_data rows] eqn:E.
    + apply IH.
    + cbn [length Nat.ltb Nat.leb]. rewrite fill_values_map.
      change (((frame :: others) ++ [SimpleFiller.separator]) ++
              [map (Shape.filled_row (SimpleFiller.data_mapping part_number part_data))
                 template])
        with (frame :: ((others ++ [SimpleFiller.separator]) ++
              [map (Shape.filled_row (SimpleFiller.data_mapping part_number part_data))
                 template])).
      rewrite IH. cbn [flat_map]. rewrite E. simpl. f_equal.
      rewrite <- !app_assoc. reflexivity.
Qed.

(** X11: the result of [fill_specifications_from_part_numbers].  It is
    [None] exactly when no part number of the batch equals a part number
    of the reference table.  Otherwise it is made of the frames of the
    part numbers found, in input order, the part numbers not found
    leaving no trace, with the three-row separator between consecutive
    frames; the frame of a part number is the template filled row by row
    from the first reference row with that part number. *)
Theorem X11_simple_filler_result (full_data : list ref_row) (template : list row)
    (part_numbers : list string) :
  let frame_of part_number :=
    match SimpleFiller.exact_rows part_number full_data with
    | part_data :: _ =>
        map (Shape.filled_row (SimpleFiller.data_mapping part_number part_data)) template
    | [] => []
    end in
  SimpleFiller.fill_specifications_from_part_numbers full_data template part_numbers
  = match SimpleFiller.found_parts full_data part_numbers with
    | [] => None
    | found =>
        Some (Shape.join_frames SimpleFiller.separator (map frame_of found))
    end.
Proof.
  intros frame_of. unfold SimpleFiller.fill_specifications_from_part_numbers.
  induction part_numbers as [|part_number rest IH]; [reflexivity|].
  cbn [SimpleFiller.fill_loop SimpleFiller.found_parts List.filter].
  fold (SimpleFiller.found_parts full_data rest).
  destruct (SimpleFiller.exact_rows part_number full_data) as [|part_data rows] eqn:E.
  - exact IH.
  - cbn [length Nat.ltb Nat.leb app]. rewrite fill_values_map, fill_loop_appends.
    cbn [app map]. rewrite join_frames_cons. f_equal.
    unfold frame_of at 1. rewrite E. simpl. f_equal.
    clear. induction (SimpleFiller.found_parts full_data rest) as [|p ps IHp];
      [reflexivity|].
    simpl. rewrite IHp. reflexivity.
Qed.

(** ** The result of get_selected_part_specs *)

Lemma omap_cons_eq {A B} (f : A -> option B) (x : A) (l : list A) :
  omap f (x :: l) = match f x with Some y => y :: omap f l | None => omap f l end.
Proof. reflexivity. Qed.

Lemma fill_required_from (required_params : gmap string string) (row : ref_row)
    (done rows : list Frame.row) (console : list Selective.message) :
  Selective.fill_required required_params row
    (imap (fun idx x => (length done + idx, parameter x)) rows) (done ++ rows) console
  = (done ++ map (Shape.filled_row
                    ((fun column => series_get row column (Str "")) <$> required_params))
               rows,
     console ++ omap
       (fun r => match parameter r with
                 | Str name =>
                     (fun column => Selective.Filled name (series_get row column (Str "")))
                       <$> required_params !! name
                 | NaN => None
                 end) rows).
Proof.
  revert done console. induction rows as [|r rows IH]; intros done console.
  - simpl. rewrite !app_nil_r. reflexivity.
  - rewrite parameter_items_from. cbn [Selective.fill_required map].
    rewrite omap_cons_eq. unfold Shape.filled_row at 1.
    assert (forall r' console',
              Selective.fill_required required_params row
                (imap (fun idx x => (S (length done) + idx, parameter x)) rows)
                (done ++ r' :: rows) console'
              = (done ++ r' :: map (Shape.filled_row
                    ((fun column => series_get row column (Str "")) <$> required_params))
                    rows,
                 console' ++ omap
                   (fun r => match parameter r with
                             | Str name =>
                                 (fun column =>
                                    Selective.Filled name (series_get row column (Str "")))
                                   <$> required_params !! name
                             | NaN => None
                             end) rows)) as Hnext.
    { intros r' console'. specialize (IH (done ++ [r']) console').
      rewrite length_app in IH. simpl in IH.
      replace (length done + 1) with (S (length done)) in IH by lia.
      rewrite <- !app_assoc in IH. exact IH. }
    destruct (parameter r) as [|name]; [apply Hnext|].
    rewrite lookup_fmap.
    destruct (required_params !! name) as [column|]; simpl; [|apply Hnext].
    rewrite at_value_middle, Hnext. rewrite <- app_assoc. reflexivity.
Qed.

Lemma fill_required_frame (required_params : gmap string string) (row : ref_row)
    (template : list Frame.row) (console : list Selective.message) :
  fst (Selective.fill_required required_params row
         (parameter_items template) template console)
  = map (Shape.filled_row
           ((fun column => series_get row column (Str "")) <$> required_params))
      template.
Proof.
  exact (f_equal fst (fill_required_from required_params row [] template console)).
Qed.

(** When the part-number column holds text and the engine compiles the
    part number, the look-up raises nothing. *)
Lemma matching_rows_selected (re_compile : string -> result (string -> bool))
    (part : string) (full_data : list ref_row) :
  is_ok (Selective.str_accessor (map Part_Number full_data)) = true ->
  is_ok (re_compile part) = true ->
  head <$> Selective.matching_rows re_compile part full_data
  = Ok (Lookup.selected_row re_compile part full_data).
Proof.
  intros Hcolumn Hcompile. rewrite matching_rows_head. unfold Lookup.selected_row.
  destruct (List.find _ full_data); [reflexivity|].
  unfold Selective.str_contains.
  destruct (Selective.str_accessor _); [|discriminate].
  destruct (re_compile part); [reflexivity|discriminate].
Qed.

Lemma select_loop_frames (re_compile : string -> result (string -> bool))
    (test_template : list Frame.row) (full_data : list ref_row)
    (required_params : gmap string string) (part_numbers : list string)
    (output_frames : list (list tagged)) (console : list Selective.message) :
  is_ok (Selective.str_accessor (map Part_Number full_data)) = true ->
  Forall (fun part => is_ok (re_compile part) = true) part_numbers ->
  fst <$> Selective.select_loop re_compile test_template full_data required_params
            part_numbers output_frames console
  = Ok (output_frames
        ++ flat_map
             (fun part =>
                match Lookup.selected_row re_compile part full_data with
                | Some row =>
                    [insert_part part
                       (map (Shape.filled_row
                               ((fun column => series_get row column (Str ""))
                                  <$> required_params))
                          test_template)]
                | None => []
                end)
             part_numbers).
Proof.
  intros Hcolumn Hcompile. revert output_frames console.
  induction Hcompile as [|part rest Hpart Hrest IH]; intros output_frames console.
  - simpl. rewrite app_nil_r. reflexivity.
  - rewrite select_loop_cons, (matching_rows_selected _ _ _ Hcolumn Hpart).
    cbn [flat_map].
    destruct (Lookup.selected_row re_compile part full_data) as [row|].
    + pose proof (fill_required_frame required_params row test_template
                    (console ++ [Selective.Found part])) as Hframe.
      destruct (Selective.fill_required required_params row
                  (parameter_items test_template) test_template
                  (console ++ [Selective.Found part])) as [filled printed].
      simpl in Hframe. subst filled. rewrite IH, <- app_assoc. reflexivity.
    + apply IH.
Qed.

(** X12: the frame returned by [get_selected_part_specs] when the
    part-number column holds text and the engine compiles every part
    number.  Each part number that has a matching row adds the template,
    filled row by row with the columns of that row that [required_params]
    names and tagged with the part number as it was given; the frames
    follow each other in input order with nothing between them, and a
    part number without a matching row adds nothing.  The result has as
    many rows as the template has, for each part number that is
    matched. *)
Theorem X12_selected_specs_frame (re_compile : string -> result (string -> bool))
    (part_numbers : list string)
    (test_template : list Frame.row) (full_data : list ref_row)
    (required_params : gmap string string) :
  is_ok (Selective.str_accessor (map Part_Number full_data)) = true ->
  Forall (fun part => is_ok (re_compile part) = true) part_numbers ->
  let frame_of part :=
    match Lookup.selected_row re_compile part full_data with
    | Some row =>
        insert_part part
          (map (Shape.filled_row
                  ((fun column => series_get row column (Str "")) <$> required_params))
             test_template)
    | None => []
    end in
  let matched :=
    List.filter
      (fun part => bool_decide (is_Some (Lookup.selected_row re_compile part full_data)))
      part_numbers in
  fst <$> Selective.get_selected_part_specs re_compile part_numbers test_template
            full_data required_params
  = Ok (concat (map frame_of part_numbers)) /\
  length (concat (map frame_of part_numbers)) = length matched * length test_template.
Proof.
  intros Hcolumn Hcompile frame_of matched. split.
  - unfold Selective.get_selected_part_specs.
    pose proof (select_loop_frames re_compile test_template full_data required_params
                  part_numbers [] [] Hcolumn Hcompile) as Hframes.
    destruct (Selective.select_loop re_compile test_template full_data required_params
                part_numbers [] []) as [[output_frames console]|e]; [|discriminate].
    injection Hframes as Hframes. simpl in Hframes. subst output_frames.
    assert (forall parts,
              concat (flat_map
                (fun part =>
                   match Lookup.selected_row re_compile part full_data with
                   | Some row =>
                       [insert_part part
                          (map (Shape.filled_row
                                  ((fun column => series_get row column (Str ""))
                                     <$> required_params))
                             test_template)]
                   | None => []
                   end) parts)
              = concat (map frame_of parts)) as Hconcat.
    { induction parts as [|part parts IH]; [reflexivity|].
      cbn [flat_map map concat]. rewrite concat_app, IH. unfold frame_of at 2.
      destruct (Lookup.selected_row re_compile part full_data); simpl;
        rewrite ?app_nil_r; reflexivity. }
    rewrite <- Hconcat.
    destruct (flat_map _ part_numbers); reflexivity.
  - subst matched. clear Hcompile.
    induction part_numbers as [|part rest IH]; [reflexivity|].
    cbn [map concat List.filter]. rewrite length_app, IH. unfold frame_of at 1.
    destruct (Lookup.selected_row re_compile part full_data) as [row|].
    + rewrite bool_decide_eq_true_2 by eauto.
      unfold insert_part. rewrite !length_map. simpl. lia.
    + rewrite bool_decide_eq_false_2 by (intros [? ?]; discriminate).
      reflexivity.
Qed.

Lemma X12_selected_specs_frame_witness :
  is_ok (Selective.str_accessor (map Part_Number Sample.full_data)) = true /\
  Forall (fun part => is_ok (Literal.plain_engine part) = true)
    ["tpl 4731"; "RK73H9"; "RK73H2B TD 1003 FT"] /\
  fst <$> Selective.get_selected_part_specs Literal.plain_engine
            ["tpl 4731"; "RK73H9"; "RK73H2B TD 1003 FT"] Sample.resistance_template
            Sample.full_data Selective.REQUIRED_PARAMETERS
  = Ok [Tagged (Str "tpl 4731") (Row (Str "Resistance") (Str "[Ohm]") (Str "4.73k"));
        Tagged (Str "RK73H2B TD 1003 FT")
          (Row (Str "Resistance") (Str "[Ohm]") (Str "100k"))].
Proof.
  assert (Forall (fun part => is_ok (Literal.plain_engine part) = true)
            ["tpl 4731"; "RK73H9"; "RK73H2B TD 1003 FT"]) as Hcompile
    by (repeat constructor).
  split; [reflexivity|]. split; [exact Hcompile|].
  exact (proj1 (X12_selected_specs_frame Literal.plain_engine
                  ["tpl 4731"; "RK73H9"; "RK73H2B TD 1003 FT"]
                  Sample.resistance_template Sample.full_data
                  Selective.REQUIRED_PARAMETERS eq_refl Hcompile)).
Defined.

(** X13: the two scripts that read the reference table agree on a part
    number that the table holds: the row that
    [fill_specifications_from_part_numbers] uses is the row that
    [get_selected_part_specs] selects, whatever the regular-expression
    engine does, and for the five parameters that the second script
    fills both write the same cell. *)
Theorem X13_scripts_agree_on_exact_match
    (re_compile : string -> result (string -> bool)) (part : string)
    (full_data : list ref_row) (row : ref_row) :
  head (SimpleFiller.exact_rows part full_data) = Some row ->
  head <$> Selective.matching_rows re_compile part full_data = Ok (Some row) /\
  Forall
    (fun name =>
       SimpleFiller.data_mapping part row !! name
       = ((fun column => series_get row column (Str ""))
            <$> Selective.REQUIRED_PARAMETERS) !! name)
    ["Resistance"; "Maximum Working Voltage"; "Tolerance"; "Package Size";
     "Rated Power per Element"].
Proof.
  intros Hexact. split.
  - unfold Selective.matching_rows, SimpleFiller.exact_rows in *.
    destruct (List.filter _ full_data) as [|first rows]; [discriminate|].
    simpl in Hexact. injection Hexact as ->. reflexivity.
  - repeat (constructor; [rewrite lookup_fmap; reflexivity|]). constructor.
Qed.

Lemma X13_scripts_agree_on_exact_match_witness :
  head (SimpleFiller.exact_rows "RK73H1E TPL 4731 DT" Sample.full_data)
    = Some Sample.row_1E /\
  head <$> Selective.matching_rows Literal.plain_engine "RK73H1E TPL 4731 DT"
             Sample.full_data
    = Ok (Some Sample.row_1E).
Proof.
  split; [reflexivity|].
  apply (X13_scripts_agree_on_exact_match Literal.plain_engine "RK73H1E TPL 4731 DT"
           Sample.full_data Sample.row_1E eq_refl).
Defined.

Lemma find_ext {A} (f g : A -> bool) (l : list A) :
  (forall x, f x = g x) -> List.find f l = List.find g l.
Proof.
  intros H. induction l as [|x l IH]; simpl; [reflexivity|].
  rewrite H, IH. reflexivity.
Qed.

(** X14: [get_selected_part_specs] does not reject an empty part number.
    The empty pattern is found in every text, so the look-up selects the
    first row whose part-number cell is the empty text and, when there is
    none, the first row of the table whose part-number cell is not empty
    in the spreadsheet; on a table with rows whose part-number cells are
    all empty it raises [AttributeError]. *)
Theorem X14_empty_part_number_matches
    (re_compile : string -> result (string -> bool)) (search : string -> bool)
    (full_data : list ref_row) :
  re_compile "" = Ok search ->
  (forall text, search text = true) ->
  head <$> Selective.matching_rows re_compile "" full_data =
    match List.find (fun r => bool_decide (Part_Number r = Str "")) full_data with
    | Some row => Ok (Some row)
    | None =>
        match full_data with
        | [] => Ok None
        | _ :: _ =>
            match List.find (fun r => Selective.is_text (Part_Number r)) full_data with
            | Some row => Ok (Some row)
            | None => Raise AttributeError
            end
        end
    end.
Proof.
  intros Hcompile Hsearch. rewrite matching_rows_head.
  destruct (List.find (fun r => bool_decide (Part_Number r = Str "")) full_data);
    [reflexivity|].
  unfold Selective.str_contains.
  destruct full_data as [|r rows]; [simpl; rewrite Hcompile; reflexivity|].
  cbv iota.
  assert (Selective.str_accessor (map Part_Number (r :: rows))
          = if existsb Selective.is_text (map Part_Number (r :: rows))
            then Ok (map Part_Number (r :: rows)) else Raise AttributeError)
    as -> by reflexivity.
  pose proof (find_text_none (r :: rows)) as Hnone.
  destruct (existsb Selective.is_text (map Part_Number (r :: rows))).
  - cbn [mbind result_bind]. rewrite Hcompile. cbn [mbind result_bind mret result_ret].
    rewrite (find_ext _ (fun r => Selective.is_text (Part_Number r))).
    + destruct (List.find _ (r :: rows)) as [row|]; [reflexivity|].
      destruct Hnone as [Hnone _]. specialize (Hnone eq_refl). discriminate.
    + intros x. destruct (Part_Number x); [reflexivity|apply Hsearch].
  - destruct Hnone as [_ Hnone]. rewrite (Hnone eq_refl). reflexivity.
Qed.

Lemma X14_empty_part_number_matches_witness :
  Literal.plain_engine ""
    = Ok (fun text => Literal.occurs_in (Lookup.fold_case "") (Lookup.fold_case text)) /\
  head <$> Selective.matching_rows Literal.plain_engine "" Sample.full_data
    = Ok (Some Sample.row_2B_FT).
Proof.
  split; [reflexivity|].
  exact (X14_empty_part_number_matches Literal.plain_engine
           (fun text => Literal.occurs_in (Lookup.fold_case "") (Lookup.fold_case text))
           Sample.full_data eq_refl (fun text => occurs_in_empty (Lookup.fold_case text))).
Defined.

(** ** pdf_extractor.py: the part numbers found in the text *)

Lemma collect_part_numbers_spec (matches part_numbers : list string) :
  NoDup part_numbers ->
  NoDup (PdfExtractor.collect_part_numbers matches part_numbers) /\
  forall p,
    p ∈ PdfExtractor.collect_part_numbers matches part_numbers <->
    p ∈ part_numbers \/
    p ∈ map (fun m => PdfExtractor.re_sub_one_space (PdfExtractor.strip m)) matches.
Proof.
  revert part_numbers. induction matches as [|m rest IH]; intros part_numbers Hnodup.
  - simpl. split; [exact Hnodup|]. intros p. rewrite elem_of_nil. tauto.
  - cbn [PdfExtractor.collect_part_numbers map].
    set (clean_part := PdfExtractor.re_sub_one_space (PdfExtractor.strip m)).
    destruct (bool_decide (clean_part ∈ part_numbers)) eqn:E.
    + apply bool_decide_eq_true_1 in E.
      destruct (IH part_numbers Hnodup) as [Hn Hin]. split; [exact Hn|].
      intros p. rewrite Hin, elem_of_cons. split; [tauto|].
      intros [H|[->|H]]; auto.
    + apply bool_decide_eq_false_1 in E.
      assert (NoDup (part_numbers ++ [clean_part])) as Hnodup'.
      { apply NoDup_app. split; [exact Hnodup|]. split.
        - intros x Hx Hx'. apply list_elem_of_singleton in Hx'. subst x. auto.
        - apply NoDup_singleton. }
      destruct (IH _ Hnodup') as [Hn Hin]. split; [exact Hn|].
      intros p. rewrite Hin, elem_of_app, list_elem_of_singleton, elem_of_cons. tauto.
Qed.

(** X15: whatever the regular-expression engine finds, the list that
    [extract_part_numbers] returns has no duplicates, and its elements
    are exactly the matches after stripping and after replacing every
    run of whitespace by one space. *)
Theorem X15_extracted_part_numbers (findall : string -> string -> list string)
    (text_content : list (nat * string)) :
  let matches :=
    findall PdfExtractor.part_pattern
      (PdfExtractor.join_spaces (map snd text_content)) in
  NoDup (PdfExtractor.extract_part_numbers findall text_content) /\
  forall p,
    p ∈ PdfExtractor.extract_part_numbers findall text_content <->
    p ∈ map (fun m => PdfExtractor.re_sub_one_space (PdfExtractor.strip m)) matches.
Proof.
  intros matches. unfold PdfExtractor.extract_part_numbers. fold matches.
  destruct (collect_part_numbers_spec matches [] (NoDup_nil_2 (A := string)))
    as [Hn Hin].
  split; [exact Hn|]. intros p. rewrite Hin, elem_of_nil. tauto.
Qed.

Lemma re_sub_spaces_lstrip (s : string) :
  re_sub_spaces (PdfExtractor.lstrip s) = re_sub_spaces s.
Proof.
  unfold re_sub_spaces. induction s as [|c s IH]; simpl; [reflexivity|].
  destruct (isspace c) eqn:E; [exact IH|]. simpl. rewrite E. reflexivity.
Qed.

Lemma re_sub_spaces_rstrip (s : string) :
  re_sub_spaces (PdfExtractor.rstrip s) = re_sub_spaces s.
Proof.
  unfold re_sub_spaces. induction s as [|c s IH]; simpl; [reflexivity|].
  destruct (isspace c) eqn:E; simpl.
  - destruct (String.eqb (PdfExtractor.rstrip s) EmptyString) eqn:Et.
    + apply String.eqb_eq in Et. rewrite Et in IH. simpl in IH. exact IH.
    + simpl. rewrite E. exact IH.
  - rewrite E, IH. reflexivity.
Qed.

Lemma re_sub_spaces_collapse (in_run : bool) (s : string) :
  re_sub_spaces (PdfExtractor.collapse_from in_run s) = re_sub_spaces s.
Proof.
  unfold re_sub_spaces. revert in_run.
  induction s as [|c s IH]; intros in_run; simpl; [reflexivity|].
  destruct (isspace c) eqn:E.
  - destruct in_run; simpl; apply IH.
  - simpl. rewrite E, IH. reflexivity.
Qed.

(** X16: the part numbers that [extract_part_numbers] stores decode like
    the text that was matched: stripping a match and replacing its runs
    of whitespace by one space does not change what [decode_part_number]
    returns for it. *)
Theorem X16_extracted_part_number_decodes_alike (matched : string) :
  decode_part_number (PdfExtractor.re_sub_one_space (PdfExtractor.strip matched))
  = decode_part_number matched.
Proof.
  rewrite !decode_part_number_unfold. cbv zeta.
  rewrite <- !upper_re_sub_spaces.
  unfold PdfExtractor.re_sub_one_space, PdfExtractor.strip.
  rewrite re_sub_spaces_collapse, re_sub_spaces_rstrip, re_sub_spaces_lstrip.
  reflexivity.
Qed.

(** ** pdf_extractor.py: the headers of a table *)

Lemma clean_headers_loop_imap (headers : list (option string)) (done : list string) :
  PdfExtractor.clean_headers_loop headers done
  = done ++ imap
      (fun position header =>
         match header with
         | Some text =>
             if String.eqb text EmptyString
             then "Column_" +:+ pretty (length done + position)
             else PdfExtractor.strip text
         | None => "Column_" +:+ pretty (length done + position)
         end) headers.
Proof.
  revert done. induction headers as [|header rest IH]; intros done.
  - simpl. rewrite app_nil_r. reflexivity.
  - cbn [PdfExtractor.clean_headers_loop imap].
    assert (forall name,
              PdfExtractor.clean_headers_loop rest (done ++ [name])
              = done ++ name :: imap
                  (fun position header =>
                     match header with
                     | Some text =>
                         if String.eqb text EmptyString
                         then "Column_" +:+ pretty (length done + S position)
                         else PdfExtractor.strip text
                     | None => "Column_" +:+ pretty (length done + S position)
                     end) rest) as Hnext.
    { intros name. rewrite IH, length_app, <- app_assoc. simpl. do 2 f_equal.
      apply imap_ext. intros position next _. simpl.
      replace (length done + 1 + position) with (length done + S position) by lia.
      reflexivity. }
    rewrite Nat.add_0_r.
    destruct header as [text|]; [destruct (String.eqb text EmptyString)|];
      rewrite Hnext; reflexivity.
Qed.

(** X17: the header cleaning of [process_tables] keeps the number of
    columns; a header that is missing or empty at position [i] (counted
    from 0) becomes "Column_i", and any other header becomes its stripped
    text, even when that is empty. *)
Theorem X17_clean_headers (headers : list (option string)) :
  PdfExtractor.clean_headers headers
  = imap
      (fun position header =>
         match header with
         | Some text =>
             if String.eqb text EmptyString
             then "Column_" +:+ pretty position
             else PdfExtractor.strip text
         | None => "Column_" +:+ pretty position
         end) headers /\
  length (PdfExtractor.clean_headers headers) = length headers.
Proof.
  assert (PdfExtractor.clean_headers headers = imap
      (fun position header =>
         match header with
         | Some text =>
             if String.eqb text EmptyString
             then "Column_" +:+ pretty position
             else PdfExtractor.strip text
         | None => "Column_" +:+ pretty position
         end) headers) as H.
  { unfold PdfExtractor.clean_headers. rewrite clean_headers_loop_imap. reflexivity. }
  split; [exact H|]. rewrite H. apply length_imap.
Qed.

Example clean_headers_example :
  PdfExtractor.clean_headers [Some " Type "; None; Some ""; Some "  "]
  = ["Type"; "Column_1"; "Column_2"; ""].
Proof. reflexivity. Qed.
